(** * EDGAR revenue fix: tag registration and the patched [to_financials_dict]

    A shallow embedding of [fix_edgar_revenue.py]:
    - the loop that registers [ADDITIONAL_REVENUE_TAGS] into the global
      [EDGAR_TAG_MAPPING] (lines 23-43);
    - [fixed_to_financials_dict] (lines 54-83), the replacement installed on
      the loader by the monkey patch (lines 87-90).

    Python floats are IEEE binary64 values, modelled by the Standard
    Library's executable [spec_float] with [prec = 53] and [emax = 1024].
    Python objects live in a heap of locations, so that "the input row is
    not mutated" is a statement about the heap and not about a copy. *)

From Stdlib Require Import ZArith Bool Ascii String.
From Stdlib Require Import Floats.SpecFloat.
From stdpp Require Import gmap strings list fin_maps.

Local Open Scope Z_scope.

(** ** Binary64 floats *)

Module F64.

Definition prec : Z := 53.
Definition emax : Z := 1024.

Definition add : spec_float -> spec_float -> spec_float := SFadd prec emax.
Definition sub : spec_float -> spec_float -> spec_float := SFsub prec emax.

(** [ltb x y] is Python's [x < y]; [leb x y] is [x <= y].  Both are false
    as soon as one operand is NaN. *)
Definition ltb : spec_float -> spec_float -> bool := SFltb.
Definition leb : spec_float -> spec_float -> bool := SFleb.

Definition zero : spec_float := S754_zero false.

Definition is_nan (x : spec_float) : bool :=
  match x with S754_nan => true | _ => false end.

Definition is_infinity (x : spec_float) : bool :=
  match x with S754_infinity _ => true | _ => false end.

(** The float nearest to an integer (ties to even); an infinity when the
    integer is beyond the binary64 range. *)
Definition of_Z (z : Z) : spec_float := binary_normalize prec emax z 0 false.

(** The float nearest to [(-1)^neg * m * 10^e], for [m >= 0]: the value
    of a decimal literal.  Overflow gives an infinity, underflow a zero. *)
Definition of_decimal (neg : bool) (m e : Z) : spec_float :=
  match m with
  | Zpos p =>
      if 0 <=? e then binary_round prec emax neg (p * Z.to_pos (10 ^ e)) 0
      else
        let '(q, e', l) := SFdiv_core_binary prec emax (Zpos p) 0 (10 ^ (- e)) 0 in
        binary_round_aux prec emax neg q e' l
  | _ => S754_zero neg
  end.

(** Python's [max(x, y)]: the first argument unless the second is greater. *)
Definition max (x y : spec_float) : spec_float := if ltb x y then y else x.

End F64.

#[global] Instance spec_float_eq_dec : EqDecision spec_float.
Proof. solve_decision. Defined.

(** ** Python's [float(str)]

    CPython's [float_from_string]: underscores are accepted between digits
    only, surrounding white space is dropped, and what remains must be,
    after an optional sign, [inf], [infinity] or [nan] in any case, or a
    decimal literal with an optional fraction and an optional exponent. *)

Module PyStr.

Definition code (c : ascii) : Z := Z.of_N (N_of_ascii c).

Definition is_space (c : ascii) : bool :=
  ((9 <=? code c) && (code c <=? 13)) || (code c =? 32).

Definition is_digit (c : ascii) : bool := (48 <=? code c) && (code c <=? 57).

Definition is_underscore (c : ascii) : bool := code c =? 95.

Definition lower (c : ascii) : ascii :=
  if (65 <=? code c) && (code c <=? 90)
  then ascii_of_N (Z.to_N (code c + 32)) else c.

(** [_Py_string_to_number_with_underscores]: [prev] is the character read
    just before [s]. *)
Fixpoint drop_underscores (prev : ascii) (s : list ascii) : option (list ascii) :=
  match s with
  | [] => if is_underscore prev then None else Some []
  | c :: s' =>
      if is_underscore c then
        if is_digit prev then drop_underscores c s' else None
      else if is_underscore prev && negb (is_digit c) then None
      else cons c <$> drop_underscores c s'
  end.

Fixpoint lstrip (s : list ascii) : list ascii :=
  match s with
  | c :: s' => if is_space c then lstrip s' else s
  | [] => []
  end.

Definition strip (s : list ascii) : list ascii := rev (lstrip (rev (lstrip s))).

Fixpoint span_digits (s : list ascii) : list ascii * list ascii :=
  match s with
  | c :: s' =>
      if is_digit c then let '(ds, r) := span_digits s' in (c :: ds, r)
      else ([], s)
  | [] => ([], [])
  end.

Definition digits_value (ds : list ascii) : Z :=
  fold_left (fun acc c => 10 * acc + (code c - 48)) ds 0.

Definition sign (s : list ascii) : bool * list ascii :=
  match s with
  | c :: s' =>
      if code c =? 45 then (true, s')
      else if code c =? 43 then (false, s')
      else (false, s)
  | [] => (false, [])
  end.

Definition is_exp_mark (c : ascii) : bool := (code c =? 101) || (code c =? 69).

(** The literal proper, sign already read. *)
Definition parse_number (neg : bool) (r : list ascii) : option spec_float :=
  let '(ip, r1) := span_digits r in
  let '(fp, r2) :=
    match r1 with
    | c :: t => if code c =? 46 then span_digits t else ([], r1)
    | [] => ([], r1)
    end in
  let m := digits_value (ip ++ fp) in
  let frac := Z.of_nat (length fp) in
  match ip ++ fp with
  | [] => None
  | _ :: _ =>
      match r2 with
      | [] => Some (F64.of_decimal neg m (- frac))
      | c :: r3 =>
          if is_exp_mark c then
            let '(eneg, r4) := sign r3 in
            let '(ed, r5) := span_digits r4 in
            match ed, r5 with
            | _ :: _, [] =>
                let e := digits_value ed in
                Some (F64.of_decimal neg m ((if eneg then - e else e) - frac))
            | _, _ => None
            end
          else None
      end
  end.

Definition parse_float (s : list ascii) : option spec_float :=
  let '(neg, r) := sign s in
  let word := string_of_list_ascii (map lower r) in
  if decide (word = "inf"%string \/ word = "infinity"%string)
  then Some (S754_infinity neg)
  else if decide (word = "nan"%string) then Some S754_nan
  else parse_number neg r.

(** *** Strings that are not ASCII

    A string of the model is the UTF-8 encoding of the Python [str].
    Before anything else [float] replaces, in a [str] that is not ASCII,
    every Unicode white space by a space and every Unicode decimal digit
    by its ASCII digit, and cuts the string at the first other character
    that is not ASCII ([_PyUnicode_TransformDecimalAndSpaceToASCII]).  The
    tables are those of Unicode 14.0, the database of CPython 3.11. *)

Definition continuation (c : ascii) : option Z :=
  if (128 <=? code c) && (code c <=? 191) then Some (code c - 128) else None.

(** The code points of a UTF-8 byte string; [None] when the bytes are not
    the encoding of a [str]. *)
Fixpoint utf8_decode (s : list ascii) : option (list Z) :=
  match s with
  | [] => Some []
  | b0 :: s1 =>
      if code b0 <? 128 then cons (code b0) <$> utf8_decode s1
      else if (194 <=? code b0) && (code b0 <=? 223) then
        match s1 with
        | b1 :: s2 =>
            c1 ← continuation b1;
            cons ((code b0 - 192) * 64 + c1) <$> utf8_decode s2
        | _ => None
        end
      else if (224 <=? code b0) && (code b0 <=? 239) then
        match s1 with
        | b1 :: b2 :: s3 =>
            c1 ← continuation b1;
            c2 ← continuation b2;
            let ch := (code b0 - 224) * 4096 + c1 * 64 + c2 in
            if (2048 <=? ch) && negb ((55296 <=? ch) && (ch <=? 57343))
            then cons ch <$> utf8_decode s3 else None
        | _ => None
        end
      else if (240 <=? code b0) && (code b0 <=? 244) then
        match s1 with
        | b1 :: b2 :: b3 :: s4 =>
            c1 ← continuation b1;
            c2 ← continuation b2;
            c3 ← continuation b3;
            let ch := (code b0 - 240) * 262144 + c1 * 4096 + c2 * 64 + c3 in
            if (65536 <=? ch) && (ch <=? 1114111)
            then cons ch <$> utf8_decode s4 else None
        | _ => None
        end
      else None
  end.

(** [Py_UNICODE_ISSPACE] *)
Definition is_unicode_space (ch : Z) : bool :=
  ((9 <=? ch) && (ch <=? 13)) || ((28 <=? ch) && (ch <=? 32)) ||
  (ch =? 0x85) || (ch =? 0xa0) || (ch =? 0x1680) ||
  ((0x2000 <=? ch) && (ch <=? 0x200a)) ||
  (ch =? 0x2028) || (ch =? 0x2029) || (ch =? 0x202f) || (ch =? 0x205f) ||
  (ch =? 0x3000).

(** The zero of each run of ten decimal digits (general category Nd). *)
Definition decimal_zeros : list Z :=
  [
    0x30; 0x660; 0x6f0; 0x7c0; 0x966; 0x9e6; 0xa66; 0xae6;
    0xb66; 0xbe6; 0xc66; 0xce6; 0xd66; 0xde6; 0xe50; 0xed0;
    0xf20; 0x1040; 0x1090; 0x17e0; 0x1810; 0x1946; 0x19d0; 0x1a80;
    0x1a90; 0x1b50; 0x1bb0; 0x1c40; 0x1c50; 0xa620; 0xa8d0; 0xa900;
    0xa9d0; 0xa9f0; 0xaa50; 0xabf0; 0xff10; 0x104a0; 0x10d30; 0x11066;
    0x110f0; 0x11136; 0x111d0; 0x112f0; 0x11450; 0x114d0; 0x11650; 0x116c0;
    0x11730; 0x118e0; 0x11950; 0x11c50; 0x11d50; 0x11da0; 0x16a60; 0x16ac0;
    0x16b50; 0x1d7ce; 0x1d7d8; 0x1d7e2; 0x1d7ec; 0x1d7f6; 0x1e140; 0x1e2f0;
    0x1e950; 0x1fbf0 ].

(** [Py_UNICODE_TODECIMAL] *)
Definition unicode_decimal (ch : Z) : option Z :=
  (fun zero => ch - zero) <$>
    List.find (fun zero => (zero <=? ch) && (ch <=? zero + 9)) decimal_zeros.

Definition ascii_of_code (n : Z) : ascii := ascii_of_N (Z.to_N n).

Fixpoint transform_decimal_and_space (chars : list Z) : list ascii :=
  match chars with
  | [] => []
  | ch :: rest =>
      if ch <? 127 then ascii_of_code ch :: transform_decimal_and_space rest
      else if is_unicode_space ch
      then ascii_of_code 32 :: transform_decimal_and_space rest
      else
        match unicode_decimal ch with
        | Some d => ascii_of_code (48 + d) :: transform_decimal_and_space rest
        | None => [ascii_of_code 63]
        end
  end.

(** An ASCII [str] is taken as it is. *)
Definition to_ascii (s : list ascii) : option (list ascii) :=
  if forallb (fun c => code c <? 128) s then Some s
  else transform_decimal_and_space <$> utf8_decode s.

Definition float_of_string (s : string) : option spec_float :=
  chars ← to_ascii (list_ascii_of_string s);
  s' ← drop_underscores Ascii.zero chars;
  parse_float (strip s').

End PyStr.

(** ** Python values, exceptions and the heap *)

(** What a cell of the loader's row can hold. *)
Inductive pyvalue : Type :=
  | PNone                      (* None, pd.NA, NaT *)
  | PFloat (x : spec_float)    (* float, numpy.float64 *)
  | PInt (z : Z)               (* int *)
  | PBool (b : bool)
  | PStr (s : string).

Inductive exn : Type :=
  | ValueError | TypeError | OverflowError | KeyError | IndexError | AttributeError.

Inductive result (A : Type) : Type :=
  | Ok (a : A)
  | Raise (e : exn).
Arguments Ok {A} a.
Arguments Raise {A} e.

#[global] Instance pyvalue_eq_dec : EqDecision pyvalue.
Proof. solve_decision. Defined.

#[global] Instance exn_eq_dec : EqDecision exn.
Proof. solve_decision. Defined.

#[global] Instance result_eq_dec {A : Type} `{EqDecision A} : EqDecision (result A).
Proof. solve_decision. Defined.

(** A pandas Series: its index labels with their values, in index order.
    Labels may repeat. *)
Abbreviation series := (list (string * pyvalue)) (only parsing).

Abbreviation loc := positive (only parsing).

Inductive object : Type :=
  | OSeries (s : series)
  | ODict (d : gmap string spec_float).

#[global] Instance object_eq_dec : EqDecision object.
Proof. solve_decision. Defined.

Abbreviation heap := (gmap positive object) (only parsing).

(** Computations read and write the heap and may raise. *)
Definition M (A : Type) : Type := heap -> result A * heap.

#[global] Instance M_ret : MRet M := fun A a h => (Ok a, h).

#[global] Instance M_bind : MBind M := fun A B f m h =>
  match m h with
  | (Ok a, h') => f a h'
  | (Raise e, h') => (Raise e, h')
  end.

Definition raise {A : Type} (e : exn) : M A := fun h => (Raise e, h).

(** [for x in xs: body x] *)
Fixpoint for_each {A : Type} (xs : list A) (body : A -> M unit) : M unit :=
  match xs with
  | [] => mret tt
  | x :: xs' => body x ;; for_each xs' body
  end.

(** [a and b] on conditions: [b] is evaluated only when [a] holds. *)
Definition py_and (a b : M bool) : M bool :=
  x ← a; if x : bool then b else mret false.

(** *** Built-ins and pandas operations used by the patch *)

(** [row[col]] gives the scalar under a label that occurs once, and a
    sub-Series when the label is repeated. *)
Inductive cell : Type :=
  | Scalar (v : pyvalue)
  | Several (vs : list pyvalue).

Definition lookup_label (col : string) (s : series) : list pyvalue :=
  snd <$> filter (fun p => p.1 = col) s.

(** [row.index] *)
Definition series_index (row : loc) : M (list string) := fun h =>
  match h !! row with
  | Some (OSeries s) => (Ok (fst <$> s), h)
  | _ => (Raise AttributeError, h)
  end.

(** [row[col]] *)
Definition series_getitem (row : loc) (col : string) : M cell := fun h =>
  match h !! row with
  | Some (OSeries s) =>
      match lookup_label col s with
      | [] => (Raise KeyError, h)
      | [v] => (Ok (Scalar v), h)
      | vs => (Ok (Several vs), h)
      end
  | _ => (Raise TypeError, h)
  end.

(** [pd.notna] of a scalar. *)
Definition pd_notna (v : pyvalue) : bool :=
  match v with
  | PNone => false
  | PFloat x => negb (F64.is_nan x)
  | _ => true
  end.

(** [if pd.notna(value):] -- on a sub-Series [pd.notna] is a Series of
    booleans, whose truth value pandas refuses to give. *)
Definition if_notna (c : cell) : M bool :=
  match c with
  | Scalar v => mret (pd_notna v)
  | Several _ => raise ValueError
  end.

(** [float(value)] of a scalar. *)
Definition py_float (v : pyvalue) : result spec_float :=
  match v with
  | PNone => Raise TypeError
  | PFloat x => Ok x
  | PInt z =>
      let x := F64.of_Z z in
      if F64.is_infinity x then Raise OverflowError else Ok x
  | PBool b => Ok (F64.of_Z (if b then 1 else 0))
  | PStr s =>
      match PyStr.float_of_string s with
      | Some x => Ok x
      | None => Raise ValueError
      end
  end.

Definition float_of_cell (c : cell) : M spec_float := fun h =>
  match c with
  | Scalar v => (py_float v, h)
  | Several _ => (Raise TypeError, h)
  end.

(** [{}] : a new dict object. *)
Definition new_dict : M loc := fun h =>
  let l := fresh (dom h) in (Ok l, <[l := ODict ∅]> h).

(** [key in d] *)
Definition dict_contains (d : loc) (key : string) : M bool := fun h =>
  match h !! d with
  | Some (ODict m) => (Ok (bool_decide (is_Some (m !! key))), h)
  | _ => (Raise TypeError, h)
  end.

(** [d.get(key, default)] *)
Definition dict_get (d : loc) (key : string) (dflt : spec_float) : M spec_float :=
  fun h =>
  match h !! d with
  | Some (ODict m) => (Ok (default dflt (m !! key)), h)
  | _ => (Raise AttributeError, h)
  end.

(** [d[key]] *)
Definition dict_getitem (d : loc) (key : string) : M spec_float := fun h =>
  match h !! d with
  | Some (ODict m) =>
      match m !! key with
      | Some x => (Ok x, h)
      | None => (Raise KeyError, h)
      end
  | _ => (Raise TypeError, h)
  end.

(** [d[key] = x] *)
Definition dict_setitem (d : loc) (key : string) (x : spec_float) : M unit := fun h =>
  match h !! d with
  | Some (ODict m) => (Ok tt, <[d := ODict (<[key := x]> m)]> h)
  | _ => (Raise TypeError, h)
  end.

(** ** The tag mapping (lines 23-43) *)

Definition ADDITIONAL_REVENUE_TAGS : list (string * string) :=
  [ ("RevenueFromContractWithCustomerIncludingAssessedTax", "revenue");
    ("SalesRevenueGoodsNet", "revenue_products");
    ("SalesRevenueServicesNet", "revenue_services");
    ("RevenuesNetOfInterestExpense", "revenue");
    ("RevenueNet", "revenue");
    ("TotalRevenues", "revenue");
    ("NetSales", "revenue");
    ("SalesRevenueGoodsGross", "revenue");
    ("TotalRevenuesAndOtherIncome", "revenue");
    ("RevenueFromContractWithCustomerExcludingAssessedTaxTransferredAtPointInTime",
     "revenue_point");
    ("RevenueFromContractWithCustomerExcludingAssessedTaxTransferredOverTime",
     "revenue_over_time") ]%string.

(** One turn of the loop of line 41 on the global [EDGAR_TAG_MAPPING]:
    [if tag not in EDGAR_TAG_MAPPING: EDGAR_TAG_MAPPING[tag] = var]. *)
Definition register_tag (mapping : gmap string string) (entry : string * string)
  : gmap string string :=
  let '(tag, var) := entry in
  if bool_decide (is_Some (mapping !! tag)) then mapping
  else <[tag := var]> mapping.

(** The whole loop, from the mapping the loader cell left behind. *)
Definition update_tag_mapping (EDGAR_TAG_MAPPING : gmap string string)
  : gmap string string :=
  fold_left register_tag ADDITIONAL_REVENUE_TAGS EDGAR_TAG_MAPPING.

(** ** The patched method (lines 54-90) *)

(** The loader is the notebook's own object; of it the patch uses
    [get_company_financials] only, which answers [None] or a DataFrame,
    here the list of its rows. *)
Record EdgarLoader : Type := {
  get_company_financials : Z -> list Z -> option (list series)
}.

(** [company_data.iloc[0]]: the first row as a Series object of its own. *)
Definition iloc0 (company_data : list series) : M loc := fun h =>
  match company_data with
  | s :: _ => let l := fresh (dom h) in (Ok l, <[l := OSeries s]> h)
  | [] => (Raise IndexError, h)
  end.

Definition skipped (col : string) : bool :=
  bool_decide (col ∈ ["cik"; "year"]%string).

(** Lines 63-83, from the row object to the returned dict: what the
    specification calls [reconcile].  The [0] of [financials.get(key, 0)]
    is compared as the float [0.0]; the [print] of line 77 only writes to
    the notebook's output and is left out. *)
Definition reconcile (row : loc) : M loc :=
  financials ← new_dict;
  index ← series_index row;
  for_each index (fun col =>
    if skipped col then mret tt
    else
      value ← series_getitem row col;
      present ← if_notna value;
      if present : bool then
        x ← float_of_cell value;
        dict_setitem financials col x
      else mret tt) ;;
  has_components ← py_and (dict_contains financials "revenue_products")
                          (dict_contains financials "revenue_services");
  (if has_components : bool then
     a ← dict_get financials "revenue_products" F64.zero;
     b ← dict_get financials "revenue_services" F64.zero;
     let total_rev := F64.add a b in
     revenue ← dict_get financials "revenue" F64.zero;
     if F64.ltb revenue total_rev
     then dict_setitem financials "revenue" total_rev
     else mret tt
   else mret tt) ;;
  has_operands ← py_and (dict_contains financials "revenue")
                        (dict_contains financials "cogs");
  (if has_operands : bool then
     revenue ← dict_getitem financials "revenue";
     cogs ← dict_getitem financials "cogs";
     dict_setitem financials "gross_profit" (F64.sub revenue cogs)
   else mret tt) ;;
  mret financials.

Definition fixed_to_financials_dict (self : EdgarLoader) (cik year : Z)
  : M (option loc) :=
  match get_company_financials self cik [year] with
  | None => mret None
  | Some company_data =>
      if bool_decide (length company_data = 0%nat) then mret None
      else
        row ← iloc0 company_data;
        financials ← reconcile row;
        mret (Some financials)
  end.

(** The method installed by [types.MethodType] on the loader object. *)
Definition to_financials_dict (edgar_loader : EdgarLoader) (cik year : Z)
  : M (option loc) :=
  fixed_to_financials_dict edgar_loader cik year.

(** The dict stored at the location a computation returns. *)
Definition returned_dict (m : M loc) (h : heap) : result (gmap string spec_float) :=
  match m h with
  | (Ok l, h') =>
      match h' !! l with
      | Some (ODict d) => Ok d
      | _ => Raise TypeError
      end
  | (Raise e, _) => Raise e
  end.

(** ** A functional view of the dict that [reconcile] builds

    The same three steps as functions on the contents of [financials];
    [reconcile_run] below shows that [reconcile] computes exactly these at
    a fresh location. *)

Definition copy_cell (s : series) (d : gmap string spec_float) (col : string)
  : result unit * gmap string spec_float :=
  if skipped col then (Ok tt, d)
  else
    match lookup_label col s with
    | [] => (Raise KeyError, d)
    | [v] =>
        if pd_notna v then
          match py_float v with
          | Ok x => (Ok tt, <[col := x]> d)
          | Raise e => (Raise e, d)
          end
        else (Ok tt, d)
    | _ => (Raise ValueError, d)
    end.

Fixpoint copy_cells (s : series) (cols : list string) (d : gmap string spec_float)
  : result unit * gmap string spec_float :=
  match cols with
  | [] => (Ok tt, d)
  | col :: cols' =>
      match copy_cell s d col with
      | (Ok _, d') => copy_cells s cols' d'
      | (Raise e, d') => (Raise e, d')
      end
  end.

Definition sum_components (d : gmap string spec_float) : gmap string spec_float :=
  match d !! "revenue_products", d !! "revenue_services" with
  | Some a, Some b =>
      let total_rev := F64.add a b in
      if F64.ltb (default F64.zero (d !! "revenue")) total_rev
      then <["revenue" := total_rev]> d else d
  | _, _ => d
  end.

Definition recompute_gross_profit (d : gmap string spec_float) : gmap string spec_float :=
  match d !! "revenue", d !! "cogs" with
  | Some revenue, Some cogs => <["gross_profit" := F64.sub revenue cogs]> d
  | _, _ => d
  end.

Definition financials_of (s : series) : result unit * gmap string spec_float :=
  match copy_cells s (fst <$> s) ∅ with
  | (Ok _, d) => (Ok tt, recompute_gross_profit (sum_components d))
  | (Raise e, d) => (Raise e, d)
  end.

(** The number a row holds under a label: the label occurs once, its value
    is not NA, and [float] accepts it. *)
Definition field (s : series) (key : string) : option spec_float :=
  match lookup_label key s with
  | [v] =>
      if pd_notna v then
        match py_float v with Ok x => Some x | Raise _ => None end
      else None
  | _ => None
  end.

(** [copied s d]: [d] is what lines 65-70 build from the row [s]. *)
Definition copied (s : series) (d : gmap string spec_float) : Prop :=
  forall key : string, d !! key = if skipped key then None else field s key.

(** The turn of the copy loop for [col] goes through. *)
Definition cell_ok (s : series) (col : string) : bool :=
  skipped col ||
  match lookup_label col s with
  | [v] => negb (pd_notna v) || (if py_float v is Ok _ then true else false)
  | _ => false
  end.

(** ** Sample rows and loaders *)

Definition row_apple : list (string * pyvalue) :=
  [ ("revenue", PFloat (F64.of_Z 181000000000));
    ("revenue_products", PFloat (F64.of_Z 298085000000));
    ("revenue_services", PFloat (F64.of_Z 85200000000));
    ("cogs", PFloat (F64.of_Z 214137000000)) ]%string.



Definition row_negative_component : list (string * pyvalue) :=
  [ ("revenue_products", PFloat (F64.of_Z (-100)));
    ("revenue_services", PFloat (F64.of_Z 50)) ]%string.

Definition row_stale_gross_profit : list (string * pyvalue) :=
  [ ("cik", PFloat (F64.of_Z 320193));
    ("year", PFloat (F64.of_Z 2024));
    ("revenue", PFloat (F64.of_Z 383285000000));
    ("cogs", PFloat (F64.of_Z 214137000000));
    ("gross_profit", PFloat (F64.of_Z 999)) ]%string.

Definition row_receivables_only : list (string * pyvalue) :=
  [ ("revenue", PFloat S754_nan);
    ("accounts_receivable", PFloat (F64.of_Z 29508000000)) ]%string.

Definition row_numeric_string : list (string * pyvalue) :=
  [ ("revenue", PStr "181000000000") ]%string.

Definition row_bad_string : list (string * pyvalue) :=
  [ ("revenue", PStr "n/a") ]%string.

(** A loader that has one row for every company and year. *)
Definition loader_with (row : list (string * pyvalue)) : EdgarLoader :=
  {| get_company_financials := fun _ _ => Some [row] |}.

(** A loader that knows no company. *)
Definition loader_without_data : EdgarLoader :=
  {| get_company_financials := fun _ _ => None |}.

(** A mapping as the loader cell may have left it. *)
Definition sample_mapping : gmap string string :=
  <["NetSales" := "net_sales"]> (<["Revenues" := "revenue"]> ∅).

(** Expected results, written out. *)
Definition dict_of (l : list (string * Z)) : gmap string spec_float :=
  list_to_map (prod_map id F64.of_Z <$> l).

Definition dict_apple : gmap string spec_float :=
  dict_of [ ("revenue", 383285000000); ("revenue_products", 298085000000);
            ("revenue_services", 85200000000); ("cogs", 214137000000);
            ("gross_profit", 169148000000) ]%string.



Definition dict_negative_component : gmap string spec_float :=
  dict_of [ ("revenue_products", -100); ("revenue_services", 50) ]%string.

Definition dict_stale_gross_profit : gmap string spec_float :=
  dict_of [ ("revenue", 383285000000); ("cogs", 214137000000);
            ("gross_profit", 169148000000) ]%string.

Definition dict_receivables_only : gmap string spec_float :=
  dict_of [ ("accounts_receivable", 29508000000) ]%string.

Definition dict_numeric_string : gmap string spec_float :=
  dict_of [ ("revenue", 181000000000) ]%string.

(** ** Around the patch

    What the cell prints after the registration loop (lines 45-46), the
    check that follows the patch (lines 97-116) and the diagnostic cell
    that calls the method (diagnostic_edgar_apple.py, lines 117-157).
    Of the text these print, the models keep which message is chosen. *)

(** [len(ADDITIONAL_REVENUE_TAGS)], printed as "Added ... new tags". *)
Definition reported_added_tags : nat := length ADDITIONAL_REVENUE_TAGS.

(** [len(EDGAR_TAG_MAPPING)] after the loop, printed as "Total tags". *)
Definition reported_total_tags (EDGAR_TAG_MAPPING : gmap string string) : nat :=
  size (update_tag_mapping EDGAR_TAG_MAPPING).

(** The additional tags that the mapping already had before the loop. *)
Definition already_mapped (EDGAR_TAG_MAPPING : gmap string string)
  : list (string * string) :=
  filter (fun entry => is_Some (EDGAR_TAG_MAPPING !! entry.1)) ADDITIONAL_REVENUE_TAGS.

(** What a call of the method hands back: nothing, or the contents of the
    dict it returns. *)
Definition returned_financials (m : M (option loc)) (h : heap)
  : result (option (gmap string spec_float)) :=
  match m h with
  | (Ok None, _) => Ok None
  | (Ok (Some l), h') =>
      match h' !! l with
      | Some (ODict d) => Ok (Some d)
      | _ => Raise TypeError
      end
  | (Raise e, _) => Raise e
  end.

(** A row without its cik and year columns. *)
Definition without_identifiers (s : list (string * pyvalue)) : list (string * pyvalue) :=
  filter (fun p => skipped p.1 = false) s.

Definition APPLE_CIK : Z := 320193.

(** [bool(d)] of a dict: it has a key. *)
Definition dict_truth (d : loc) : M bool := fun h =>
  match h !! d with
  | Some (ODict m) => (Ok (bool_decide (m <> ∅)), h)
  | _ => (Raise TypeError, h)
  end.

(** The message that ends the check of lines 97-116. *)
Inductive fix_report : Type :=
  | GrossProfitPositive        (* "Gross Profit is now POSITIVE!" *)
  | GrossProfitStillNegative   (* "Gross Profit still negative - need to reload" *)
  | CouldNotGetFinancials.     (* "[ERROR] Could not get Apple financials" *)

#[global] Instance fix_report_eq_dec : EqDecision fix_report.
Proof. solve_decision. Defined.

(** Lines 97-116.  [if apple_financials:] is false for [None] and for a
    dict without keys; the three [get(key, 0)] read the dict, and [gp > 0]
    picks the message. *)
Definition verify_fix (edgar_loader : EdgarLoader) : M fix_report :=
  apple_financials ← to_financials_dict edgar_loader APPLE_CIK 2024;
  match apple_financials with
  | Some financials =>
      nonempty ← dict_truth financials;
      if nonempty : bool then
        rev ← dict_get financials "revenue" F64.zero;
        cogs ← dict_get financials "cogs" F64.zero;
        gp ← dict_get financials "gross_profit" F64.zero;
        if F64.ltb F64.zero gp then mret GrossProfitPositive
        else mret GrossProfitStillNegative
      else mret CouldNotGetFinancials
  | None => mret CouldNotGetFinancials
  end.

(** [try: m except Exception as e: handler e] *)
Definition try_except {A : Type} (m : M A) (handler : exn -> M A) : M A := fun h =>
  match m h with
  | (Ok a, h') => (Ok a, h')
  | (Raise e, h') => handler e h'
  end.

Definition APPLE_ACTUAL_REVENUE : Z := 383285000000.
Definition APPLE_ACTUAL_AR : Z := 29508000000.

(** The message of the "CRITICAL CHECK" (diagnostic_edgar_apple.py, lines
    143-151). *)
Inductive revenue_verdict : Type :=
  | RevenueMatchesAR         (* "WARNING: 'revenue' matches expected AR value!" *)
  | RevenueMatchesRevenue    (* "GOOD: 'revenue' matches expected Revenue value" *)
  | RevenueUnexpected.       (* "UNEXPECTED: revenue doesn't match either ..." *)

(** [abs(rev - APPLE_ACTUAL_AR) < 1e9], then the same against
    [APPLE_ACTUAL_REVENUE]; the integers are exact as floats. *)
Definition judge_revenue (rev : spec_float) : revenue_verdict :=
  if F64.ltb (SFabs (F64.sub rev (F64.of_Z APPLE_ACTUAL_AR))) (F64.of_Z 1000000000)
  then RevenueMatchesAR
  else if F64.ltb (SFabs (F64.sub rev (F64.of_Z APPLE_ACTUAL_REVENUE)))
                  (F64.of_Z 1000000000)
  then RevenueMatchesRevenue
  else RevenueUnexpected.

(** How step 4 of the diagnostic cell ends. *)
Inductive diagnostic_report : Type :=
  | Judged (v : revenue_verdict)
  | ReturnedNone             (* "[ERROR] to_financials_dict returned None" *)
  | Failed (e : exn)         (* "[ERROR] {e}" and the traceback *)
  | NothingPrinted.          (* the loader is missing or not loaded *)

#[global] Instance revenue_verdict_eq_dec : EqDecision revenue_verdict.
Proof. solve_decision. Defined.

#[global] Instance diagnostic_report_eq_dec : EqDecision diagnostic_report.
Proof. solve_decision. Defined.

(** diagnostic_edgar_apple.py, lines 117-157, run once the patch is
    installed.  [edgar_loader] is [None] when the name is not in
    [globals()]; [is_loaded] is the loader's attribute of that name. *)
Definition diagnose_to_financials_dict
    (edgar_loader : option EdgarLoader) (is_loaded : bool) : M diagnostic_report :=
  try_except
    (match edgar_loader with
     | Some loader =>
         if is_loaded then
           financials ← to_financials_dict loader APPLE_CIK 2023;
           match financials with
           | Some d =>
               nonempty ← dict_truth d;
               if nonempty : bool then
                 rev ← dict_get d "revenue" F64.zero;
                 ar ← dict_get d "accounts_receivable" F64.zero;
                 mret (Judged (judge_revenue rev))
               else mret ReturnedNone
           | None => mret ReturnedNone
           end
         else mret NothingPrinted
     | None => mret NothingPrinted
     end)
    (fun e => mret (Failed e)).

(** More sample rows. *)
Definition row_text_identifiers : list (string * pyvalue) :=
  [ ("cik", PStr "0000320193");
    ("year", PStr "FY2024");
    ("revenue", PFloat (F64.of_Z 383285000000));
    ("cogs", PFloat (F64.of_Z 214137000000));
    ("gross_profit", PFloat (F64.of_Z 999)) ]%string.

Definition row_all_null : list (string * pyvalue) :=
  [ ("cik", PFloat (F64.of_Z 320193));
    ("year", PFloat (F64.of_Z 2024));
    ("revenue", PFloat S754_nan);
    ("cogs", PNone) ]%string.

Definition row_loss : list (string * pyvalue) :=
  [ ("revenue", PFloat (F64.of_Z 100));
    ("cogs", PFloat (F64.of_Z 250));
    ("gross_profit", PFloat (F64.of_Z 40)) ]%string.

(** The integer a float is exactly equal to, when there is one. *)
Definition float_integer_value (x : spec_float) : option Z :=
  match x with
  | S754_zero _ => Some 0
  | S754_finite s m e =>
      if 0 <=? e then Some (cond_Zopp s (Zpos m * 2 ^ e))
      else if Zpos m mod 2 ^ (- e) =? 0
      then Some (cond_Zopp s (Zpos m / 2 ^ (- e))) else None
  | _ => None
  end.

(** The method from line 59 on, given what the loader call of line 58
    returned; [fixed_to_financials_dict] is this applied to
    [self.get_company_financials(cik, [year])]. *)
Definition after_loader_call (company_data : option (list (list (string * pyvalue))))
  : M (option loc) :=
  match company_data with
  | None => mret None
  | Some company_data =>
      if bool_decide (length company_data = 0%nat) then mret None
      else
        row ← iloc0 company_data;
        financials ← reconcile row;
        mret (Some financials)
  end.

(** Rows whose revenue is no float. *)
Definition row_big_int : list (string * pyvalue) :=
  [ ("revenue", PInt 9007199254740993) ]%string.

Definition dict_big_int : gmap string spec_float :=
  dict_of [ ("revenue", 9007199254740992) ]%string.

Definition row_fullwidth_digits : list (string * pyvalue) :=
  [ ("revenue", PStr "１２") ]%string.

(** ** The heap operations on a heap of known shape *)

Section HeapShape.

Variables (h : heap) (row l : loc) (s : series) (d : gmap string spec_float).
Hypothesis Hrow : h !! row = Some (OSeries s).
Hypothesis Hl : l ≠ row.

Lemma run_bind {A B : Type} (m : M A) (f : A -> M B) (h0 : heap) :
  (m ≫= f) h0 =
  match m h0 with (Ok a, h') => f a h' | (Raise e, h') => (Raise e, h') end.
Proof. reflexivity. Qed.

Lemma run_ret {A : Type} (a : A) (h0 : heap) : (mret a : M A) h0 = (Ok a, h0).
Proof. reflexivity. Qed.

Lemma run_series_index : series_index row (<[l := ODict d]> h) = (Ok (fst <$> s), <[l := ODict d]> h).
Proof. unfold series_index. by rewrite lookup_insert_ne, Hrow. Qed.

Lemma run_series_getitem col :
  series_getitem row col (<[l := ODict d]> h) =
  (match lookup_label col s with
   | [] => Raise KeyError
   | [v] => Ok (Scalar v)
   | vs => Ok (Several vs)
   end, <[l := ODict d]> h).
Proof.
  unfold series_getitem. rewrite lookup_insert_ne, Hrow by done.
  by destruct (lookup_label col s) as [|v [|w vs]].
Qed.

Lemma run_dict_contains key :
  dict_contains l key (<[l := ODict d]> h) =
  (Ok (bool_decide (is_Some (d !! key))), <[l := ODict d]> h).
Proof. unfold dict_contains. by rewrite lookup_insert_eq. Qed.

Lemma run_contains_both key1 key2 :
  py_and (dict_contains l key1) (dict_contains l key2) (<[l := ODict d]> h) =
  (Ok (bool_decide (is_Some (d !! key1)) && bool_decide (is_Some (d !! key2))),
   <[l := ODict d]> h).
Proof.
  unfold py_and. rewrite run_bind, run_dict_contains.
  destruct (bool_decide (is_Some (d !! key1))); [|done].
  by rewrite run_dict_contains.
Qed.

Lemma run_dict_get key dflt :
  dict_get l key dflt (<[l := ODict d]> h) =
  (Ok (default dflt (d !! key)), <[l := ODict d]> h).
Proof. unfold dict_get. by rewrite lookup_insert_eq. Qed.

Lemma run_dict_getitem key :
  dict_getitem l key (<[l := ODict d]> h) =
  (match d !! key with Some x => Ok x | None => Raise KeyError end,
   <[l := ODict d]> h).
Proof. unfold dict_getitem. rewrite lookup_insert_eq. by destruct (d !! key). Qed.

Lemma run_dict_setitem key x :
  dict_setitem l key x (<[l := ODict d]> h) =
  (Ok tt, <[l := ODict (<[key := x]> d)]> h).
Proof. unfold dict_setitem. by rewrite lookup_insert_eq, insert_insert_eq. Qed.

End HeapShape.

(** ** [reconcile] computes [financials_of] at a fresh location *)

Lemma run_copy_loop (h : heap) (row l : loc) (s : series) :
  h !! row = Some (OSeries s) -> l ≠ row ->
  forall (cols : list string) (d : gmap string spec_float),
  for_each cols (fun col =>
    if skipped col then mret tt
    else
      value ← series_getitem row col;
      present ← if_notna value;
      if present : bool then
        x ← float_of_cell value;
        dict_setitem l col x
      else mret tt) (<[l := ODict d]> h) =
  ((copy_cells s cols d).1, <[l := ODict (copy_cells s cols d).2]> h).
Proof.
  intros Hrow Hl. induction cols as [|col cols IH]; intros d; [done|].
  cbn [for_each copy_cells]. rewrite run_bind. unfold copy_cell.
  destruct (skipped col).
  - rewrite run_ret. apply IH.
  - rewrite run_bind, (run_series_getitem h row l s d Hrow Hl).
    destruct (lookup_label col s) as [|v [|w vs]]; [done| |done].
    rewrite run_bind. cbn [if_notna]. rewrite run_ret.
    destruct (pd_notna v).
    + rewrite run_bind. cbn [float_of_cell].
      destruct (py_float v) as [x|e]; [|done].
      rewrite run_dict_setitem. apply IH.
    + rewrite run_ret. apply IH.
Qed.

Lemma reconcile_run (h : heap) (row : loc) (s : series) :
  h !! row = Some (OSeries s) ->
  reconcile row h =
  (match (financials_of s).1 with
   | Ok _ => Ok (fresh (dom h))
   | Raise e => Raise e
   end,
   <[fresh (dom h) := ODict (financials_of s).2]> h).
Proof.
  intros Hrow.
  assert (Hl : fresh (dom h) ≠ row).
  { intros Heq. apply (is_fresh (dom h)). rewrite Heq. by apply elem_of_dom. }
  unfold reconcile, financials_of.
  rewrite run_bind. unfold new_dict at 1. cbv zeta.
  set (l := fresh (dom h)) in *.
  rewrite run_bind, (run_series_index h row l s ∅ Hrow Hl).
  rewrite run_bind, (run_copy_loop h row l s Hrow Hl).
  destruct (copy_cells s (fst <$> s) ∅) as [[[]|e] d]; [|done]. cbn [fst snd].
  rewrite run_bind, run_contains_both.
  unfold sum_components, recompute_gross_profit.
  rewrite run_bind.
  set (d1 := match d !! "revenue_products"%string with
             | Some a => match d !! "revenue_services"%string with
                         | Some b => if F64.ltb (default F64.zero (d !! "revenue"%string)) (F64.add a b)
                                     then <["revenue"%string := F64.add a b]> d else d
                         | None => d end
             | None => d end).
  assert (Hstep2 :
    (if bool_decide (is_Some (d !! "revenue_products"%string)) &&
        bool_decide (is_Some (d !! "revenue_services"%string))
     then
       a ← dict_get l "revenue_products" F64.zero;
       b ← dict_get l "revenue_services" F64.zero;
       revenue ← dict_get l "revenue" F64.zero;
       if F64.ltb revenue (F64.add a b)
       then dict_setitem l "revenue" (F64.add a b)
       else mret tt
     else mret tt) (<[l := ODict d]> h) = (Ok tt, <[l := ODict d1]> h)).
  { subst d1.
    destruct (d !! "revenue_products"%string) as [a|] eqn:Ha;
      destruct (d !! "revenue_services"%string) as [b|] eqn:Hb;
      rewrite ?bool_decide_eq_true_2, ?bool_decide_eq_false_2
        by (try apply is_Some_None; eauto); cbn [andb]; try done.
    rewrite run_bind, run_dict_get, run_bind, run_dict_get, Ha, Hb. cbn [default].
    rewrite run_bind, run_dict_get.
    destruct (F64.ltb _ _); [by rewrite run_dict_setitem | done]. }
  rewrite Hstep2. clearbody d1. clear Hstep2.
  rewrite run_bind, run_contains_both.
  rewrite run_bind.
  destruct (d1 !! "revenue"%string) as [r|] eqn:Hr;
    destruct (d1 !! "cogs"%string) as [c|] eqn:Hc;
    rewrite ?bool_decide_eq_true_2, ?bool_decide_eq_false_2
      by (try apply is_Some_None; eauto); cbn [andb]; try done.
  rewrite run_bind, run_dict_getitem, Hr, run_bind, run_dict_getitem, Hc.
  by rewrite run_dict_setitem.
Qed.

Lemma returned_dict_reconcile (h : heap) (row : loc) (s : series) :
  h !! row = Some (OSeries s) ->
  returned_dict (reconcile row) h =
  match (financials_of s).1 with
  | Ok _ => Ok (financials_of s).2
  | Raise e => Raise e
  end.
Proof.
  intros Hrow. unfold returned_dict. rewrite (reconcile_run h row s Hrow).
  destruct (financials_of s).1; [|done]. by rewrite lookup_insert_eq.
Qed.

(** ** Order facts on binary64 values *)

Lemma SFcompare_antisym (x y : spec_float) (c : comparison) :
  SFcompare x y = Some c -> SFcompare y x = Some (CompOpp c).
Proof.
  destruct x as [sx|sx| |sx mx ex], y as [sy|sy| |sy my ey]; cbn;
    intros Hc; simplify_eq; try (by destruct sx); try (by destruct sy);
    try (by destruct sx, sy).
  f_equal. destruct sx, sy; try done.
  - rewrite (Z.compare_antisym ey ex).
    destruct (ey ?= ex); cbn; try done.
    by rewrite (Pos.compare_cont_antisym mx my Eq).
  - rewrite (Z.compare_antisym ey ex).
    destruct (ey ?= ex); cbn; try done.
    by rewrite (Pos.compare_cont_antisym mx my Eq).
Qed.

Lemma SFcompare_not_nan (x y : spec_float) :
  F64.is_nan x = false -> F64.is_nan y = false -> is_Some (SFcompare x y).
Proof.
  destruct x as [sx|sx| |sx mx ex], y as [sy|sy| |sy my ey]; cbn; intros; eauto; done.
Qed.

Lemma SFcompare_refl (x : spec_float) :
  F64.is_nan x = false -> SFcompare x x = Some Eq.
Proof.
  destruct x as [sx|sx| |sx mx ex]; cbn; intros Hx; try done.
  - by destruct sx.
  - f_equal. destruct sx; rewrite Z.compare_refl;
      change (Pos.compare_cont Eq mx mx) with (mx ?= mx)%positive;
      by rewrite Pos.compare_refl.
Qed.

Lemma leb_refl (x : spec_float) : F64.is_nan x = false -> F64.leb x x = true.
Proof. intros Hx. unfold F64.leb, SFleb. by rewrite SFcompare_refl. Qed.

Lemma ltb_not_nan_r (x y : spec_float) : F64.ltb x y = true -> F64.is_nan y = false.
Proof.
  unfold F64.ltb, SFltb.
  destruct x as [sx|sx| |sx mx ex], y as [sy|sy| |sy my ey]; cbn; done.
Qed.

Lemma ltb_false_leb (x y : spec_float) :
  F64.is_nan x = false -> F64.is_nan y = false ->
  F64.ltb x y = false -> F64.leb y x = true.
Proof.
  intros Hx Hy. unfold F64.ltb, F64.leb, SFltb, SFleb.
  destruct (SFcompare_not_nan x y Hx Hy) as [c Hc].
  rewrite Hc, (SFcompare_antisym x y c Hc). by destruct c.
Qed.

(** ** What the copy loop leaves in [financials] *)

Lemma lookup_label_cons (key k : string) (v : pyvalue) (s : series) :
  lookup_label key ((k, v) :: s) =
  if decide (k = key) then v :: lookup_label key s else lookup_label key s.
Proof.
  unfold lookup_label. rewrite filter_cons. cbn [fst].
  by destruct (decide (k = key)).
Qed.

Lemma lookup_label_nil (key : string) (s : series) :
  key ∉ s.*1 -> lookup_label key s = [].
Proof.
  induction s as [|[k v] s IH]; [done|].
  rewrite fmap_cons, not_elem_of_cons, lookup_label_cons. cbn [fst].
  intros [Hne Hnin]. destruct (decide (k = key)); [congruence | auto].
Qed.

Lemma lookup_label_elem (key : string) (v : pyvalue) (s : series) :
  (key, v) ∈ s -> v ∈ lookup_label key s.
Proof.
  intros Hin. unfold lookup_label. apply list_elem_of_fmap.
  exists (key, v). split; [done|]. by apply list_elem_of_filter.
Qed.

Lemma lookup_label_present (key : string) (s : series) :
  key ∈ s.*1 -> lookup_label key s ≠ [].
Proof.
  intros [[k v] [-> Hin]]%list_elem_of_fmap. cbn [fst].
  intros Hnil. apply lookup_label_elem in Hin. rewrite Hnil in Hin.
  by apply not_elem_of_nil in Hin.
Qed.

Lemma lookup_label_NoDup (key : string) (v : pyvalue) (s : series) :
  NoDup s.*1 -> (key, v) ∈ s -> lookup_label key s = [v].
Proof.
  induction s as [|[k w] s IH]; intros Hnd Hin.
  { by apply not_elem_of_nil in Hin. }
  rewrite fmap_cons in Hnd. cbn [fst] in Hnd. apply NoDup_cons in Hnd as [Hk Hnd].
  rewrite lookup_label_cons. apply elem_of_cons in Hin as [Heq|Hin].
  - simplify_eq. rewrite decide_True by done. by rewrite lookup_label_nil.
  - destruct (decide (k = key)) as [->|Hne]; [|by apply IH].
    exfalso. apply Hk. apply list_elem_of_fmap. by exists (key, v).
Qed.

Lemma field_absent (key : string) (s : series) : key ∉ s.*1 -> field s key = None.
Proof. intros Hnin. unfold field. by rewrite lookup_label_nil. Qed.

Lemma copy_cell_lookup (s : series) (d d' : gmap string spec_float) (col key : string) (u : unit) :
  copy_cell s d col = (Ok u, d') ->
  d' !! key =
  if bool_decide (key = col) && negb (skipped key)
  then from_option Some (d !! key) (field s key) else d !! key.
Proof.
  unfold copy_cell. case_bool_decide as Hkey; cbn [andb].
  - subst col. unfold field. destruct (skipped key); cbn [negb].
    { intros; by simplify_eq. }
    destruct (lookup_label key s) as [|v [|w vs]]; [done| |done].
    destruct (pd_notna v); [|intros; by simplify_eq].
    destruct (py_float v) as [x|e]; [|done].
    intros; simplify_eq. cbn. by rewrite lookup_insert_eq.
  - destruct (skipped col); [intros; by simplify_eq|].
    destruct (lookup_label col s) as [|v [|w vs]]; [done| |done].
    destruct (pd_notna v); [|intros; by simplify_eq].
    destruct (py_float v) as [x|e]; [|done].
    intros; simplify_eq. by rewrite lookup_insert_ne.
Qed.

Lemma copy_cells_lookup (s : series) (cols : list string) (key : string) :
  forall (d d' : gmap string spec_float) (u : unit),
  copy_cells s cols d = (Ok u, d') ->
  d' !! key =
  if bool_decide (key ∈ cols) && negb (skipped key)
  then from_option Some (d !! key) (field s key) else d !! key.
Proof.
  induction cols as [|col cols IH]; intros d d' u.
  { cbn. intros; by simplify_eq. }
  cbn [copy_cells]. destruct (copy_cell s d col) as [[u1|e] d1] eqn:Hcell; [|done].
  intros Hrest. rewrite (IH _ _ _ Hrest), (copy_cell_lookup _ _ _ _ key _ Hcell).
  destruct (skipped key); cbn [negb]; rewrite ?andb_false_r; [done|].
  rewrite !andb_true_r.
  destruct (decide (key = col)) as [->|Hne].
  - rewrite (bool_decide_eq_true_2 (col ∈ col :: cols)) by apply list_elem_of_here.
    rewrite (bool_decide_eq_true_2 (col = col)) by done.
    destruct (field s col); cbn; by case_bool_decide.
  - rewrite (bool_decide_eq_false_2 (key = col)) by done.
    assert (Hiff : key ∈ col :: cols <-> key ∈ cols).
    { rewrite elem_of_cons. split; [by intros [?|?] | auto]. }
    by rewrite (bool_decide_ext _ _ Hiff).
Qed.

Lemma financials_of_ok (s : series) (d : gmap string spec_float) (u : unit) :
  financials_of s = (Ok u, d) ->
  exists d0, copied s d0 /\ d = recompute_gross_profit (sum_components d0).
Proof.
  unfold financials_of.
  destruct (copy_cells s (fst <$> s) ∅) as [[u0|e] d0] eqn:Hcopy; [|done].
  intros; simplify_eq. exists d0. split; [|done].
  intros key. rewrite (copy_cells_lookup _ _ key _ _ _ Hcopy), lookup_empty.
  destruct (skipped key); cbn [negb]; rewrite ?andb_false_r, ?andb_true_r; [done|].
  case_bool_decide as Hin.
  - by destruct (field s key).
  - by rewrite field_absent.
Qed.

Lemma reconcile_ok (h : heap) (row : loc) (s : series) (d : gmap string spec_float) :
  h !! row = Some (OSeries s) ->
  returned_dict (reconcile row) h = Ok d ->
  exists d0, copied s d0 /\ d = recompute_gross_profit (sum_components d0).
Proof.
  intros Hrow. rewrite (returned_dict_reconcile h row s Hrow).
  destruct (financials_of s) as [[u|e] d'] eqn:Hfin; cbn [fst snd]; [|done].
  intros; simplify_eq. by apply (financials_of_ok s d u).
Qed.

(** ** Steps 2 and 3 on the contents of [financials] *)

Lemma sum_components_lookup_ne (d : gmap string spec_float) (key : string) :
  key ≠ "revenue"%string -> sum_components d !! key = d !! key.
Proof.
  intros Hne. unfold sum_components.
  destruct (d !! "revenue_products"%string); [|done].
  destruct (d !! "revenue_services"%string); [|done].
  destruct (F64.ltb _ _); [|done]. by rewrite lookup_insert_ne.
Qed.

Lemma sum_components_revenue (d : gmap string spec_float) :
  sum_components d !! "revenue"%string =
  match d !! "revenue_products"%string, d !! "revenue_services"%string with
  | Some a, Some b =>
      if F64.ltb (default F64.zero (d !! "revenue"%string)) (F64.add a b)
      then Some (F64.add a b) else d !! "revenue"%string
  | _, _ => d !! "revenue"%string
  end.
Proof.
  unfold sum_components.
  destruct (d !! "revenue_products"%string); [|done].
  destruct (d !! "revenue_services"%string); [|done].
  destruct (F64.ltb _ _); [|done]. by rewrite lookup_insert_eq.
Qed.

Lemma recompute_gross_profit_lookup_ne (d : gmap string spec_float) (key : string) :
  key ≠ "gross_profit"%string -> recompute_gross_profit d !! key = d !! key.
Proof.
  intros Hne. unfold recompute_gross_profit.
  destruct (d !! "revenue"%string); [|done].
  destruct (d !! "cogs"%string); [|done]. by rewrite lookup_insert_ne.
Qed.

Lemma recompute_gross_profit_lookup (d : gmap string spec_float) :
  recompute_gross_profit d !! "gross_profit"%string =
  match d !! "revenue"%string, d !! "cogs"%string with
  | Some revenue, Some cogs => Some (F64.sub revenue cogs)
  | _, _ => d !! "gross_profit"%string
  end.
Proof.
  unfold recompute_gross_profit.
  destruct (d !! "revenue"%string); [|done].
  destruct (d !! "cogs"%string); [|done]. by rewrite lookup_insert_eq.
Qed.

Lemma copied_lookup (s : series) (d : gmap string spec_float) (key : string) :
  copied s d -> skipped key = false -> d !! key = field s key.
Proof. intros Hd Hkey. by rewrite (Hd key), Hkey. Qed.

(** The revenue of the result, in terms of the row. *)
Lemma reconcile_revenue (h : heap) (row : loc) (s : series) (d : gmap string spec_float) :
  h !! row = Some (OSeries s) ->
  returned_dict (reconcile row) h = Ok d ->
  d !! "revenue"%string =
  match field s "revenue_products", field s "revenue_services" with
  | Some a, Some b =>
      if F64.ltb (default F64.zero (field s "revenue")) (F64.add a b)
      then Some (F64.add a b) else field s "revenue"
  | _, _ => field s "revenue"
  end.
Proof.
  intros Hrow Hret. destruct (reconcile_ok h row s d Hrow Hret) as (d0 & Hd0 & ->).
  rewrite recompute_gross_profit_lookup_ne, sum_components_revenue by done.
  rewrite (copied_lookup s d0 "revenue_products" Hd0) by reflexivity.
  rewrite (copied_lookup s d0 "revenue_services" Hd0) by reflexivity.
  by rewrite (copied_lookup s d0 "revenue" Hd0) by reflexivity.
Qed.

(** Closed facts are settled by evaluating their decision procedure. *)
Ltac by_evaluation :=
  match goal with
  | |- ?P => apply (bool_decide_eq_true_1 P); vm_compute; reflexivity
  end.

(** ** The claims *)




(** C2.  For every input row, whenever revenue and cogs are both present
    once the component sum has been applied -- that is, in the result,
    since the last step writes gross_profit only -- the gross_profit of
    the result is exactly revenue - cogs, whatever gross_profit the row
    reported. *)
Theorem reconcile_gross_profit
    (h : heap) (row : loc) (s : series) (d : gmap string spec_float) (revenue cogs : spec_float) :
  h !! row = Some (OSeries s) ->
  returned_dict (reconcile row) h = Ok d ->
  d !! "revenue"%string = Some revenue ->
  d !! "cogs"%string = Some cogs ->
  d !! "gross_profit"%string = Some (F64.sub revenue cogs).
Proof.
  intros Hrow Hret. destruct (reconcile_ok h row s d Hrow Hret) as (d0 & _ & ->).
  rewrite recompute_gross_profit_lookup.
  rewrite !recompute_gross_profit_lookup_ne by done.
  by intros -> ->.
Qed.

Lemma reconcile_gross_profit_witness :
  returned_dict (reconcile 1%positive) {[1%positive := OSeries row_stale_gross_profit]}
    = Ok dict_stale_gross_profit /\
  field row_stale_gross_profit "gross_profit" = Some (F64.of_Z 999) /\
  dict_stale_gross_profit !! "gross_profit"%string =
    Some (F64.sub (F64.of_Z 383285000000) (F64.of_Z 214137000000)).
Proof.
  assert (Hret : returned_dict (reconcile 1%positive)
                   {[1%positive := OSeries row_stale_gross_profit]}
                 = Ok dict_stale_gross_profit)
    by (by_evaluation).
  split; [exact Hret|]. split; [vm_compute; reflexivity|].
  apply (reconcile_gross_profit
           {[1%positive := OSeries row_stale_gross_profit]} 1%positive
           row_stale_gross_profit dict_stale_gross_profit _ _
           (lookup_singleton_eq _ _) Hret);
    vm_compute; reflexivity.
Defined.

(** C3, as the code has it.  For every input row in which both
    revenue_products and revenue_services are present, with a sum that is
    a number, and in which revenue is present (and a number) or the sum
    is greater than zero, the result of reconcile has a revenue and
    revenue >= revenue_products + revenue_services.  Components may be
    negative as long as one of the two conditions holds. *)
Theorem reconcile_revenue_covers_components
    (h : heap) (row : loc) (s : series) (d : gmap string spec_float) (A B : spec_float) :
  h !! row = Some (OSeries s) ->
  returned_dict (reconcile row) h = Ok d ->
  field s "revenue_products" = Some A ->
  field s "revenue_services" = Some B ->
  F64.is_nan (F64.add A B) = false ->
  match field s "revenue" with
  | Some R => F64.is_nan R = false
  | None => F64.ltb F64.zero (F64.add A B) = true
  end ->
  exists X, d !! "revenue"%string = Some X /\ F64.leb (F64.add A B) X = true.
Proof.
  intros Hrow Hret HA HB Hsum Hrev.
  rewrite (reconcile_revenue h row s d Hrow Hret), HA, HB. unfold default.
  destruct (field s "revenue") as [R|]; cbn [from_option id].
  - destruct (F64.ltb R (F64.add A B)) eqn:Hlt.
    + eexists. split; [done|]. by apply leb_refl.
    + eexists. split; [done|]. by apply ltb_false_leb.
  - rewrite Hrev. eexists. split; [done|]. by apply leb_refl.
Qed.

Lemma reconcile_revenue_covers_components_witness :
  exists X, dict_apple !! "revenue"%string = Some X /\
    F64.leb (F64.add (F64.of_Z 298085000000) (F64.of_Z 85200000000)) X = true.
Proof.
  apply (reconcile_revenue_covers_components
           {[1%positive := OSeries row_apple]} 1%positive row_apple dict_apple
           (F64.of_Z 298085000000) (F64.of_Z 85200000000)
           (lookup_singleton_eq _ _));
    first [by_evaluation | vm_compute; reflexivity].
Defined.

(** C3 as stated fails: with revenue_products = -100, revenue_services = 50
    and no revenue in the row, the result has no revenue, hence none that
    is >= -50. *)
Lemma revenue_missing_for_negative_component :
  returned_dict (reconcile 1%positive) {[1%positive := OSeries row_negative_component]}
    = Ok dict_negative_component /\
  field row_negative_component "revenue_products" = Some (F64.of_Z (-100)) /\
  field row_negative_component "revenue_services" = Some (F64.of_Z 50) /\
  ~ exists X, dict_negative_component !! "revenue"%string = Some X /\
      F64.leb (F64.add (F64.of_Z (-100)) (F64.of_Z 50)) X = true.
Proof.
  split; [by_evaluation|]. split; [vm_compute; reflexivity|].
  split; [vm_compute; reflexivity|].
  intros (X & HX & _). vm_compute in HX. discriminate.
Qed.

(** C5, as the code has it.  For every input row that holds neither
    revenue_products nor revenue_services, the revenue of the result of
    reconcile is float() of the revenue of the row: the same value when
    the row holds a float that is not NaN; the nearest binary64 value when
    it holds an int within the float range; absent, not zero, when the
    row has no revenue or a null one. *)
Theorem reconcile_revenue_unchanged
    (h : heap) (row : loc) (s : series) (d : gmap string spec_float) :
  h !! row = Some (OSeries s) ->
  returned_dict (reconcile row) h = Ok d ->
  field s "revenue_products" = None ->
  field s "revenue_services" = None ->
  d !! "revenue"%string = field s "revenue" /\
  (forall x : spec_float,
     lookup_label "revenue" s = [PFloat x] -> F64.is_nan x = false ->
     d !! "revenue"%string = Some x) /\
  (forall z : Z,
     lookup_label "revenue" s = [PInt z] -> F64.is_infinity (F64.of_Z z) = false ->
     d !! "revenue"%string = Some (F64.of_Z z)) /\
  (forall v : pyvalue,
     lookup_label "revenue" s = [v] -> pd_notna v = false ->
     d !! "revenue"%string = None) /\
  (lookup_label "revenue" s = [] -> d !! "revenue"%string = None).
Proof.
  intros Hrow Hret HA HB.
  assert (Hrev : d !! "revenue"%string = field s "revenue")
    by (by rewrite (reconcile_revenue h row s d Hrow Hret), HA).
  rewrite Hrev. unfold field. split; [done|]. split; [|split; [|split]].
  - intros x -> Hx. cbn [pd_notna py_float]. by rewrite Hx.
  - intros z -> Hz. cbn [pd_notna py_float]. by rewrite Hz.
  - by intros v -> ->.
  - by intros ->.
Qed.

Lemma reconcile_revenue_unchanged_witness :
  dict_stale_gross_profit !! "revenue"%string = Some (F64.of_Z 383285000000) /\
  dict_receivables_only !! "revenue"%string = None.
Proof.
  split.
  - rewrite (proj1 (reconcile_revenue_unchanged
               {[1%positive := OSeries row_stale_gross_profit]} 1%positive
               row_stale_gross_profit dict_stale_gross_profit
               (lookup_singleton_eq _ _) ltac:(by_evaluation)
               ltac:(vm_compute; reflexivity) ltac:(vm_compute; reflexivity))).
    vm_compute; reflexivity.
  - rewrite (proj1 (reconcile_revenue_unchanged
               {[1%positive := OSeries row_receivables_only]} 1%positive
               row_receivables_only dict_receivables_only
               (lookup_singleton_eq _ _) ltac:(by_evaluation)
               ltac:(vm_compute; reflexivity) ltac:(vm_compute; reflexivity))).
    vm_compute; reflexivity.
Defined.

(** C5 as stated fails: with no component in the row and the int
    9007199254740993 (2^53 + 1) under revenue, the result holds the float
    9007199254740992.0, which is another number than the row's. *)
Lemma revenue_int_is_rounded :
  returned_dict (reconcile 1%positive) {[1%positive := OSeries row_big_int]}
    = Ok dict_big_int /\
  field row_big_int "revenue_products" = None /\
  field row_big_int "revenue_services" = None /\
  lookup_label "revenue" row_big_int = [PInt 9007199254740993] /\
  (exists x, dict_big_int !! "revenue"%string = Some x /\
     float_integer_value x = Some 9007199254740992) /\
  9007199254740992 <> 9007199254740993.
Proof.
  split; [by_evaluation|]. split; [vm_compute; reflexivity|].
  split; [vm_compute; reflexivity|]. split; [vm_compute; reflexivity|].
  split; [|done]. eexists. split; vm_compute; reflexivity.
Qed.

(** C6.  For every heap and every row object in it, running reconcile
    leaves the row object as it was -- the same labels with the same
    values, none added, none removed -- and leaves every other object of
    the heap as it was; the dict it returns is a new object, at a location
    that held nothing before the call. *)
Theorem reconcile_leaves_row (h : heap) (row : loc) (s : series) :
  h !! row = Some (OSeries s) ->
  (reconcile row h).2 !! row = Some (OSeries s) /\
  (forall (l : loc) (o : object), h !! l = Some o -> (reconcile row h).2 !! l = Some o) /\
  (forall l : loc, (reconcile row h).1 = Ok l ->
     h !! l = None /\ l <> row /\ exists d, (reconcile row h).2 !! l = Some (ODict d)).
Proof.
  intros Hrow. rewrite (reconcile_run h row s Hrow). cbn [fst snd].
  assert (Hfresh : h !! fresh (dom h) = None).
  { apply not_elem_of_dom, is_fresh. }
  assert (Hframe : forall (l : loc) (o : object), h !! l = Some o ->
            <[fresh (dom h) := ODict (financials_of s).2]> h !! l = Some o).
  { intros l o Hl. rewrite lookup_insert_ne; [done|]. congruence. }
  split; [by apply Hframe|]. split; [done|].
  intros l Hres. destruct (financials_of s).1; [|done]. simplify_eq.
  split; [done|]. split; [congruence|].
  eexists. apply lookup_insert_eq.
Qed.

Lemma reconcile_leaves_row_witness :
  (reconcile 1%positive {[1%positive := OSeries row_apple]}).2 !! 1%positive
    = Some (OSeries row_apple).
Proof.
  exact (proj1 (reconcile_leaves_row {[1%positive := OSeries row_apple]} 1%positive
                  row_apple (lookup_singleton_eq _ _))).
Defined.

(** C7.  The registration loop never removes or overrides an entry: every
    tag present in EDGAR_TAG_MAPPING before the loop runs is still present
    afterwards and maps to the same canonical field. *)
Theorem update_tag_mapping_keeps_entries
    (EDGAR_TAG_MAPPING : gmap string string) (tag var : string) :
  EDGAR_TAG_MAPPING !! tag = Some var ->
  update_tag_mapping EDGAR_TAG_MAPPING !! tag = Some var.
Proof.
  unfold update_tag_mapping. generalize ADDITIONAL_REVENUE_TAGS as entries.
  intros entries. revert EDGAR_TAG_MAPPING.
  induction entries as [|[tag' var'] entries IH]; intros mapping Htag; [done|].
  cbn [fold_left]. apply IH. unfold register_tag.
  case_bool_decide as Hin; [done|].
  rewrite lookup_insert_ne; [done|].
  intros ->. apply Hin. by exists var.
Qed.

Lemma update_tag_mapping_keeps_entries_witness :
  update_tag_mapping sample_mapping !! "NetSales"%string = Some "net_sales"%string.
Proof.
  apply (update_tag_mapping_keeps_entries sample_mapping "NetSales" "net_sales").
  vm_compute; reflexivity.
Defined.

(** C8.  On the row {revenue: 181000000000, revenue_products: 298085000000,
    revenue_services: 85200000000, cogs: 214137000000} reconcile returns a
    dict whose revenue is 383285000000 and whose gross_profit is
    169148000000. *)
Theorem reconcile_apple_row (h : heap) (row : loc) :
  h !! row = Some (OSeries row_apple) ->
  exists d : gmap string spec_float,
    returned_dict (reconcile row) h = Ok d /\
    d !! "revenue"%string = Some (F64.of_Z 383285000000) /\
    d !! "gross_profit"%string = Some (F64.of_Z 169148000000).
Proof.
  intros Hrow. rewrite (returned_dict_reconcile h row row_apple Hrow).
  assert (Hfin : financials_of row_apple = (Ok tt, dict_apple)) by by_evaluation.
  rewrite Hfin. cbn [fst snd]. exists dict_apple.
  split; [done|]. split; vm_compute; reflexivity.
Qed.

Lemma reconcile_apple_row_witness :
  exists d : gmap string spec_float,
    returned_dict (reconcile 1%positive) {[1%positive := OSeries row_apple]} = Ok d /\
    d !! "revenue"%string = Some (F64.of_Z 383285000000) /\
    d !! "gross_profit"%string = Some (F64.of_Z 169148000000).
Proof.
  apply (reconcile_apple_row {[1%positive := OSeries row_apple]} 1%positive
           (lookup_singleton_eq _ _)).
Defined.

(** ** When the copy loop raises *)

Lemma copy_cell_ok (s : series) (d : gmap string spec_float) (col : string) :
  cell_ok s col = true -> exists d', copy_cell s d col = (Ok tt, d').
Proof.
  unfold cell_ok, copy_cell. destruct (skipped col); cbn [orb]; [eauto|].
  destruct (lookup_label col s) as [|v [|w vs]]; [done| |done].
  destruct (pd_notna v); cbn [negb orb]; [|eauto].
  destruct (py_float v); [eauto|done].
Qed.

Lemma copy_cell_raise (s : series) (d : gmap string spec_float) (col : string) :
  cell_ok s col = false -> exists e, copy_cell s d col = (Raise e, d).
Proof.
  unfold cell_ok, copy_cell. destruct (skipped col); cbn [orb]; [done|].
  destruct (lookup_label col s) as [|v [|w vs]]; [eauto| |eauto].
  destruct (pd_notna v); cbn [negb orb]; [|done].
  destruct (py_float v); [done|eauto].
Qed.

Lemma copy_cells_ok (s : series) (cols : list string) :
  Forall (fun col => cell_ok s col = true) cols ->
  forall d, exists d', copy_cells s cols d = (Ok tt, d').
Proof.
  induction 1 as [|col cols Hcol _ IH]; intros d; cbn [copy_cells]; [eauto|].
  destruct (copy_cell_ok s d col Hcol) as [d1 ->]. apply IH.
Qed.

Lemma copy_cells_raise (s : series) (cols : list string) (col : string) :
  col ∈ cols -> cell_ok s col = false ->
  forall d, exists e d', copy_cells s cols d = (Raise e, d').
Proof.
  induction cols as [|c cols IH]; intros Hin Hbad d.
  { by apply not_elem_of_nil in Hin. }
  cbn [copy_cells]. destruct (copy_cell s d c) as [[[]|e] d1] eqn:Hc; [|eauto].
  apply elem_of_cons in Hin as [->|Hin]; [|by apply IH].
  destruct (copy_cell_raise s d c Hbad) as [e He]. congruence.
Qed.

Lemma cell_ok_rejected (s : series) (key : string) (v : pyvalue) (e : exn) :
  (key, v) ∈ s -> skipped key = false -> pd_notna v = true ->
  py_float v = Raise e -> cell_ok s key = false.
Proof.
  intros Hin Hkey Hna Hfl. unfold cell_ok. rewrite Hkey. cbn [orb].
  apply lookup_label_elem in Hin.
  destruct (lookup_label key s) as [|w [|w' vs]]; [done| |done].
  apply list_elem_of_singleton in Hin as <-. by rewrite Hna, Hfl.
Qed.

Lemma cell_ok_accepted (s : series) (key : string) :
  NoDup s.*1 ->
  (forall v, (key, v) ∈ s ->
     skipped key = true \/ pd_notna v = false \/ exists x, py_float v = Ok x) ->
  key ∈ s.*1 -> cell_ok s key = true.
Proof.
  intros Hnd Hall [[k v] [-> Hin]]%list_elem_of_fmap. cbn [fst] in *.
  unfold cell_ok. rewrite (lookup_label_NoDup k v s Hnd Hin).
  destruct (Hall v Hin) as [->|[->|[x ->]]]; [done| |].
  - by rewrite orb_true_r.
  - by rewrite !orb_true_r.
Qed.


(** C4, as the code has it.  For every input row that holds, under a
    label other than cik and year, a present value that float() rejects
    (a string that is no float literal, say), reconcile raises.  A present
    value that float() accepts is converted even when it is not a number
    (a numeric string, a boolean).  For every input row with distinct
    labels whose present values under the other labels are all accepted by
    float() -- every float is -- reconcile does not raise, whatever fields
    are absent. *)
Theorem reconcile_failure_semantics (h : heap) (row : loc) (s : series) :
  h !! row = Some (OSeries s) ->
  (forall (key : string) (v : pyvalue) (e : exn),
     (key, v) ∈ s -> skipped key = false -> pd_notna v = true ->
     py_float v = Raise e ->
     exists e', returned_dict (reconcile row) h = Raise e') /\
  (NoDup s.*1 ->
   (forall (key : string) (v : pyvalue), (key, v) ∈ s ->
      skipped key = true \/ pd_notna v = false \/ exists x, py_float v = Ok x) ->
   exists d, returned_dict (reconcile row) h = Ok d).
Proof.
  intros Hrow. rewrite (returned_dict_reconcile h row s Hrow).
  unfold financials_of. split.
  - intros key v e Hin Hkey Hna Hfl.
    assert (Hcol : key ∈ s.*1).
    { apply list_elem_of_fmap. by exists (key, v). }
    destruct (copy_cells_raise s (s.*1) key Hcol
                (cell_ok_rejected s key v e Hin Hkey Hna Hfl) ∅) as (e' & d' & ->).
    by exists e'.
  - intros Hnd Hall.
    destruct (copy_cells_ok s (s.*1)) with (d := ∅ : gmap string spec_float)
      as [d' ->].
    + apply Forall_forall. intros key Hkey.
      apply cell_ok_accepted; [done| |done]. intros v. apply Hall.
    + cbn [fst snd]. eauto.
Qed.

Lemma reconcile_failure_semantics_witness :
  (exists e', returned_dict (reconcile 1%positive)
                {[1%positive := OSeries row_bad_string]} = Raise e') /\
  (exists d, returned_dict (reconcile 1%positive)
               {[1%positive := OSeries row_receivables_only]} = Ok d) /\
  (exists d, returned_dict (reconcile 1%positive)
               {[1%positive := OSeries row_fullwidth_digits]} = Ok d).
Proof.
  split; [|split].
  - apply (proj1 (reconcile_failure_semantics
                    {[1%positive := OSeries row_bad_string]} 1%positive
                    row_bad_string (lookup_singleton_eq _ _))
             "revenue"%string (PStr "n/a") ValueError);
      first [by_evaluation | vm_compute; reflexivity].
  - apply (proj2 (reconcile_failure_semantics
                    {[1%positive := OSeries row_receivables_only]} 1%positive
                    row_receivables_only (lookup_singleton_eq _ _))).
    + by_evaluation.
    + intros key v Hin. right.
      apply elem_of_cons in Hin as [Heq|Hin]; [simplify_eq; by left|].
      apply list_elem_of_singleton in Hin. simplify_eq. right. by eexists.
  - apply (proj2 (reconcile_failure_semantics
                    {[1%positive := OSeries row_fullwidth_digits]} 1%positive
                    row_fullwidth_digits (lookup_singleton_eq _ _))).
    + by_evaluation.
    + intros key v Hin. right. right.
      apply list_elem_of_singleton in Hin. simplify_eq.
      exists (F64.of_Z 12). vm_compute; reflexivity.
Defined.

(** C4 as stated fails: the string '181000000000' is a present value that
    is not a number, and reconcile converts it to 181000000000.0 without
    raising. *)
Lemma numeric_string_is_converted :
  ("revenue"%string, PStr "181000000000") ∈ row_numeric_string /\
  pd_notna (PStr "181000000000") = true /\
  returned_dict (reconcile 1%positive) {[1%positive := OSeries row_numeric_string]}
    = Ok dict_numeric_string /\
  dict_numeric_string !! "revenue"%string = Some (F64.of_Z 181000000000).
Proof.
  split; [by_evaluation|]. split; [reflexivity|].
  split; [by_evaluation | vm_compute; reflexivity].
Qed.

(** ** The patched method *)

Lemma fixed_to_financials_dict_run
    (self : EdgarLoader) (cik year : Z) (h : heap) (s : series) (rest : list series) :
  get_company_financials self cik [year] = Some (s :: rest) ->
  fixed_to_financials_dict self cik year h =
  (match (financials_of s).1 with
   | Ok _ => Ok (Some (fresh (dom (<[fresh (dom h) := OSeries s]> h))))
   | Raise e => Raise e
   end,
   <[fresh (dom (<[fresh (dom h) := OSeries s]> h)) := ODict (financials_of s).2]>
     (<[fresh (dom h) := OSeries s]> h)).
Proof.
  intros Hdata. unfold fixed_to_financials_dict. rewrite Hdata.
  rewrite bool_decide_eq_false_2 by done.
  rewrite run_bind. cbn [iloc0]. cbv zeta.
  rewrite run_bind.
  rewrite (reconcile_run _ _ s (lookup_insert_eq h (fresh (dom h)) (OSeries s))).
  by destruct (financials_of s).1.
Qed.

(** C9.  For every cik and year for which the loader's
    get_company_financials returns None or a DataFrame without rows, the
    patched to_financials_dict returns None: no dict, no error, and the
    heap as it was. *)
Theorem to_financials_dict_no_data
    (edgar_loader : EdgarLoader) (cik year : Z) (h : heap) :
  get_company_financials edgar_loader cik [year] = None \/
  get_company_financials edgar_loader cik [year] = Some [] ->
  to_financials_dict edgar_loader cik year h = (Ok None, h).
Proof.
  unfold to_financials_dict, fixed_to_financials_dict. by intros [-> | ->].
Qed.

Lemma to_financials_dict_no_data_witness :
  to_financials_dict loader_without_data 320193 2024 ∅ = (Ok None, ∅).
Proof.
  apply (to_financials_dict_no_data loader_without_data 320193 2024 ∅).
  left. reflexivity.
Defined.




(** ** More on the registration loop (lines 41-46) *)

Lemma register_tag_lookup (mapping : gmap string string) (tag var key : string) :
  register_tag mapping (tag, var) !! key =
  match mapping !! key with
  | Some v => Some v
  | None => if decide (tag = key) then Some var else None
  end.
Proof.
  unfold register_tag. case_bool_decide as Hin.
  - destruct (mapping !! key) as [v|] eqn:Hkey; [done|].
    destruct (decide (tag = key)) as [->|]; [|done].
    rewrite Hkey in Hin. by destruct Hin.
  - rewrite lookup_insert. destruct (decide (tag = key)) as [->|]; [|by destruct (mapping !! key)].
    destruct (mapping !! key) as [v|] eqn:Hkey; [|done].
    exfalso. apply Hin. by exists v.
Qed.

(** The loop is a left-biased union with the table of additional tags. *)
Lemma fold_register_tag (entries : list (string * string)) :
  forall mapping : gmap string string,
  fold_left register_tag entries mapping = mapping ∪ list_to_map entries.
Proof.
  induction entries as [|[tag var] entries IH]; intros mapping.
  { cbn. by rewrite (right_id_L ∅ (∪)). }
  cbn [fold_left]. rewrite IH. apply map_eq. intros key.
  rewrite !lookup_union, register_tag_lookup. cbn [list_to_map foldr].
  rewrite lookup_insert. cbn [fst snd].
  destruct (mapping !! key) as [v|]; destruct (decide (tag = key));
    by destruct (list_to_map entries !! key).
Qed.

Lemma additional_tags_NoDup : NoDup ADDITIONAL_REVENUE_TAGS.*1.
Proof. by_evaluation. Qed.

(** X1.  After the loop every tag of ADDITIONAL_REVENUE_TAGS is in the
    mapping, and one that was not there before maps to the field the
    table gives it. *)
Theorem update_tag_mapping_registers
    (EDGAR_TAG_MAPPING : gmap string string) (tag var : string) :
  (tag, var) ∈ ADDITIONAL_REVENUE_TAGS ->
  is_Some (update_tag_mapping EDGAR_TAG_MAPPING !! tag) /\
  (EDGAR_TAG_MAPPING !! tag = None ->
   update_tag_mapping EDGAR_TAG_MAPPING !! tag = Some var).
Proof.
  intros Hin. unfold update_tag_mapping. rewrite fold_register_tag, lookup_union.
  assert (Htab : (list_to_map ADDITIONAL_REVENUE_TAGS : gmap string string) !! tag
                 = Some var).
  { apply elem_of_list_to_map; [apply additional_tags_NoDup | done]. }
  rewrite Htab. split.
  - destruct (EDGAR_TAG_MAPPING !! tag); by eexists.
  - by intros ->.
Qed.

Lemma update_tag_mapping_registers_witness :
  is_Some (update_tag_mapping sample_mapping !! "TotalRevenues"%string) /\
  (sample_mapping !! "TotalRevenues"%string = None ->
   update_tag_mapping sample_mapping !! "TotalRevenues"%string = Some "revenue"%string).
Proof.
  apply (update_tag_mapping_registers sample_mapping "TotalRevenues" "revenue").
  by_evaluation.
Defined.

(** X2.  The loop adds nothing but the tags of ADDITIONAL_REVENUE_TAGS: a
    tag that is neither in the mapping before the loop nor in the table is
    not in the mapping afterwards. *)
Theorem update_tag_mapping_adds_only_listed
    (EDGAR_TAG_MAPPING : gmap string string) (tag : string) :
  EDGAR_TAG_MAPPING !! tag = None ->
  tag ∉ ADDITIONAL_REVENUE_TAGS.*1 ->
  update_tag_mapping EDGAR_TAG_MAPPING !! tag = None.
Proof.
  intros Hnone Hnin. unfold update_tag_mapping.
  rewrite fold_register_tag, lookup_union, Hnone.
  by rewrite (not_elem_of_list_to_map_1 _ _ Hnin).
Qed.

Lemma update_tag_mapping_adds_only_listed_witness :
  update_tag_mapping sample_mapping !! "AccountsReceivableNetCurrent"%string = None.
Proof.
  apply (update_tag_mapping_adds_only_listed sample_mapping
           "AccountsReceivableNetCurrent").
  - vm_compute; reflexivity.
  - by_evaluation.
Defined.

(** X3.  Running the loop again changes nothing: the cell can be run any
    number of times with the result of the first run. *)
Theorem update_tag_mapping_idempotent (EDGAR_TAG_MAPPING : gmap string string) :
  update_tag_mapping (update_tag_mapping EDGAR_TAG_MAPPING) =
  update_tag_mapping EDGAR_TAG_MAPPING.
Proof.
  unfold update_tag_mapping. rewrite !fold_register_tag.
  by rewrite <- (assoc_L (∪)), (idemp_L (∪)).
Qed.

Lemma filter_agree {A : Type} (P Q : A -> Prop)
    `{!forall x, Decision (P x)} `{!forall x, Decision (Q x)} (l : list A) :
  (forall x, x ∈ l -> P x <-> Q x) -> filter P l = filter Q l.
Proof.
  induction l as [|x l IH]; intros Hagree; [done|].
  rewrite !filter_cons, IH.
  - destruct (decide (P x)) as [HP|HP]; destruct (decide (Q x)) as [HQ|HQ];
      try done; exfalso; apply (Hagree x (list_elem_of_here _ _)) in HP || apply HP;
      try done; by apply (Hagree x (list_elem_of_here _ _)).
  - intros y Hy. apply Hagree. by apply list_elem_of_further.
Qed.

Lemma fold_register_tag_size (entries : list (string * string)) :
  NoDup entries.*1 ->
  forall mapping : gmap string string,
  (size (fold_left register_tag entries mapping) +
     length (filter (fun entry => is_Some (mapping !! entry.1)) entries) =
   size mapping + length entries)%nat.
Proof.
  induction entries as [|[tag var] entries IH]; intros Hnd mapping.
  { cbn. lia. }
  rewrite fmap_cons in Hnd. cbn [fst] in Hnd. apply NoDup_cons in Hnd as [Htag Hnd].
  cbn [fold_left]. rewrite filter_cons. cbn [fst length].
  unfold register_tag at 2. case_bool_decide as Hin.
  - rewrite decide_True by done. cbn [length]. specialize (IH Hnd mapping). lia.
  - rewrite decide_False by done.
    assert (Hnone : mapping !! tag = None).
    { destruct (mapping !! tag) eqn:E; [|done]. exfalso. apply Hin. eauto. }
    specialize (IH Hnd (<[tag := var]> mapping)).
    rewrite (map_size_insert_None _ _ _ Hnone) in IH.
    assert (Hsame :
      filter (fun entry => is_Some (<[tag := var]> mapping !! entry.1)) entries =
      filter (fun entry => is_Some (mapping !! entry.1)) entries).
    { apply filter_agree. intros [t v] Ht. cbn [fst].
      rewrite lookup_insert_ne; [done|]. intros ->. apply Htag.
      apply list_elem_of_fmap. by exists (t, v). }
    rewrite Hsame in IH. lia.
Qed.

(** X4.  The mapping grows by the number of additional tags it did not
    have yet: the size printed as "Total tags" plus the number of
    additional tags already mapped equals the size before the loop plus
    the number printed as "Added ... new tags".  The printed number of
    added tags is therefore too high by the number of tags that were
    already mapped. *)
Theorem update_tag_mapping_growth (EDGAR_TAG_MAPPING : gmap string string) :
  (reported_total_tags EDGAR_TAG_MAPPING + length (already_mapped EDGAR_TAG_MAPPING)
   = size EDGAR_TAG_MAPPING + reported_added_tags)%nat.
Proof.
  unfold reported_total_tags, reported_added_tags, already_mapped, update_tag_mapping.
  apply fold_register_tag_size, additional_tags_NoDup.
Qed.

(** ** More on what [reconcile] returns *)


(** X5.  Every field other than revenue and gross_profit passes through
    unchanged: under a label other than cik and year the result holds
    float() of the row's non-null value, and holds nothing when the row
    has no value there.  Nothing is dropped and nothing else is altered. *)
Theorem reconcile_passes_fields_through
    (h : heap) (row : loc) (s : series) (d : gmap string spec_float) (key : string) :
  h !! row = Some (OSeries s) ->
  returned_dict (reconcile row) h = Ok d ->
  skipped key = false ->
  key <> "revenue"%string -> key <> "gross_profit"%string ->
  d !! key = field s key.
Proof.
  intros Hrow Hret Hkey Hr Hg.
  destruct (reconcile_ok h row s d Hrow Hret) as (d0 & Hd0 & ->).
  rewrite recompute_gross_profit_lookup_ne, sum_components_lookup_ne by done.
  by apply copied_lookup.
Qed.

Lemma reconcile_passes_fields_through_witness :
  dict_apple !! "cogs"%string = Some (F64.of_Z 214137000000) /\
  dict_apple !! "net_income"%string = None.
Proof.
  split.
  - rewrite (reconcile_passes_fields_through
               {[1%positive := OSeries row_apple]} 1%positive row_apple dict_apple
               "cogs" (lookup_singleton_eq _ _));
      first [by_evaluation | vm_compute; reflexivity | done].
  - rewrite (reconcile_passes_fields_through
               {[1%positive := OSeries row_apple]} 1%positive row_apple dict_apple
               "net_income" (lookup_singleton_eq _ _));
      first [by_evaluation | vm_compute; reflexivity | done].
Defined.



(** X7.  gross_profit is recomputed only from a complete pair: when the
    result lacks revenue or lacks cogs, its gross_profit is the row's own
    gross_profit, present or absent. *)
Theorem reconcile_keeps_reported_gross_profit
    (h : heap) (row : loc) (s : series) (d : gmap string spec_float) :
  h !! row = Some (OSeries s) ->
  returned_dict (reconcile row) h = Ok d ->
  d !! "revenue"%string = None \/ d !! "cogs"%string = None ->
  d !! "gross_profit"%string = field s "gross_profit".
Proof.
  intros Hrow Hret. destruct (reconcile_ok h row s d Hrow Hret) as (d0 & Hd0 & ->).
  rewrite recompute_gross_profit_lookup.
  rewrite !recompute_gross_profit_lookup_ne by done.
  rewrite (sum_components_lookup_ne d0 "gross_profit") by done.
  rewrite (copied_lookup s d0 "gross_profit" Hd0) by reflexivity.
  intros [-> | Hc]; [done|].
  rewrite Hc. by destruct (sum_components d0 !! "revenue"%string).
Qed.

Lemma reconcile_keeps_reported_gross_profit_witness :
  dict_receivables_only !! "gross_profit"%string = None.
Proof.
  rewrite (reconcile_keeps_reported_gross_profit
             {[1%positive := OSeries row_receivables_only]} 1%positive
             row_receivables_only dict_receivables_only (lookup_singleton_eq _ _));
    first [by_evaluation | vm_compute; reflexivity].
Defined.

(** ** The identifier columns *)

Lemma lookup_label_without_identifiers (s : series) (col : string) :
  skipped col = false ->
  lookup_label col (without_identifiers s) = lookup_label col s.
Proof.
  intros Hcol. unfold lookup_label, without_identifiers. f_equal.
  rewrite list_filter_filter. apply filter_agree.
  intros [k v] _. cbn [fst]. split; [by intros [? _]|]. intros ->. by split.
Qed.

Lemma copy_cell_without_identifiers
    (s : series) (d : gmap string spec_float) (col : string) :
  copy_cell (without_identifiers s) d col = copy_cell s d col.
Proof.
  unfold copy_cell. destruct (skipped col) eqn:Hcol; [done|].
  by rewrite lookup_label_without_identifiers.
Qed.

Lemma copy_cells_without_identifiers (s s' : series) :
  forall d : gmap string spec_float,
  copy_cells (without_identifiers s) (without_identifiers s').*1 d =
  copy_cells s s'.*1 d.
Proof.
  induction s' as [|[k v] s' IH]; intros d; [done|].
  unfold without_identifiers at 2. rewrite filter_cons. cbn [fst].
  fold (without_identifiers s').
  destruct (decide (skipped k = false)) as [Hk|Hk].
  - rewrite !fmap_cons. cbn [fst copy_cells].
    rewrite copy_cell_without_identifiers.
    destruct (copy_cell s d k) as [[u|e] d1]; [apply IH | done].
  - rewrite fmap_cons. cbn [fst copy_cells]. rewrite IH.
    unfold copy_cell. apply not_false_is_true in Hk. by rewrite Hk.
Qed.

(** X8.  The cik and year columns are dropped unread: two rows that differ
    only in what they hold under cik and year give the same outcome, the
    same dict or the same exception. *)
Theorem reconcile_ignores_identifiers
    (h h' : heap) (row row' : loc) (s s' : series) :
  h !! row = Some (OSeries s) ->
  h' !! row' = Some (OSeries s') ->
  without_identifiers s = without_identifiers s' ->
  returned_dict (reconcile row) h = returned_dict (reconcile row') h'.
Proof.
  intros Hrow Hrow' Hsame.
  rewrite (returned_dict_reconcile h row s Hrow).
  rewrite (returned_dict_reconcile h' row' s' Hrow').
  unfold financials_of.
  rewrite <- (copy_cells_without_identifiers s s).
  rewrite <- (copy_cells_without_identifiers s' s').
  by rewrite Hsame.
Qed.

Lemma reconcile_ignores_identifiers_witness :
  returned_dict (reconcile 1%positive) {[1%positive := OSeries row_stale_gross_profit]} =
  returned_dict (reconcile 1%positive) {[1%positive := OSeries row_text_identifiers]}.
Proof.
  apply (reconcile_ignores_identifiers
           {[1%positive := OSeries row_stale_gross_profit]}
           {[1%positive := OSeries row_text_identifiers]}
           1%positive 1%positive row_stale_gross_profit row_text_identifiers);
    [apply lookup_singleton_eq | apply lookup_singleton_eq | by_evaluation].
Defined.

(** ** The method and its callers *)

Lemma returned_financials_run
    (self : EdgarLoader) (cik year : Z) (h : heap) (s : series) (rest : list series) :
  get_company_financials self cik [year] = Some (s :: rest) ->
  returned_financials (to_financials_dict self cik year) h =
  match financials_of s with
  | (Ok _, d) => Ok (Some d)
  | (Raise e, _) => Raise e
  end.
Proof.
  intros Hdata. unfold returned_financials, to_financials_dict.
  rewrite (fixed_to_financials_dict_run self cik year h s rest Hdata).
  destruct (financials_of s) as [[u|e] d]; cbn [fst snd]; [|done].
  by rewrite lookup_insert_eq.
Qed.

(** X9.  When the loader has at least one row, the patched method returns
    what reconcile returns for the first row -- the same dict, or the same
    exception -- and never None; the rows after the first are not used. *)
Theorem to_financials_dict_first_row
    (edgar_loader : EdgarLoader) (cik year : Z) (h h0 : heap) (row : loc)
    (s : series) (rest : list series) :
  get_company_financials edgar_loader cik [year] = Some (s :: rest) ->
  h0 !! row = Some (OSeries s) ->
  returned_financials (to_financials_dict edgar_loader cik year) h =
  match returned_dict (reconcile row) h0 with
  | Ok d => Ok (Some d)
  | Raise e => Raise e
  end.
Proof.
  intros Hdata Hrow.
  rewrite (returned_financials_run edgar_loader cik year h s rest Hdata).
  rewrite (returned_dict_reconcile h0 row s Hrow).
  by destruct (financials_of s) as [[u|e] d].
Qed.

Lemma to_financials_dict_first_row_witness :
  returned_financials (to_financials_dict (loader_with row_apple) 320193 2024) ∅ =
  match returned_dict (reconcile 1%positive) {[1%positive := OSeries row_apple]} with
  | Ok d => Ok (Some d)
  | Raise e => Raise e
  end.
Proof.
  apply (to_financials_dict_first_row (loader_with row_apple) 320193 2024 ∅
           {[1%positive := OSeries row_apple]} 1%positive row_apple []).
  - reflexivity.
  - apply lookup_singleton_eq.
Defined.

Lemma fixed_to_financials_dict_after_loader (self : EdgarLoader) (cik year : Z) :
  fixed_to_financials_dict self cik year =
  after_loader_call (get_company_financials self cik [year]).
Proof. reflexivity. Qed.

(** X10.  Whatever the loader call of line 58 returned, and whatever heap
    it left behind, the rest of the method (lines 59-83) changes no object
    of that heap, whether it returns None, returns a dict or raises. *)
Theorem after_loader_call_frame
    (company_data : option (list series)) (h : heap) (l : loc) (o : object) :
  h !! l = Some o ->
  (after_loader_call company_data h).2 !! l = Some o.
Proof.
  intros Hl. destruct company_data as [[|s rest]|]; [done| |done].
  unfold after_loader_call.
  rewrite bool_decide_eq_false_2 by done.
  rewrite run_bind. cbn [iloc0]. cbv zeta. rewrite run_bind.
  rewrite (reconcile_run _ _ s (lookup_insert_eq h (fresh (dom h)) (OSeries s))).
  assert (Hl1 : <[fresh (dom h) := OSeries s]> h !! l = Some o).
  { rewrite lookup_insert_ne; [done|]. intros Heq.
    apply (is_fresh (dom h)). rewrite Heq. by apply elem_of_dom. }
  assert (Hl2 : <[fresh (dom (<[fresh (dom h) := OSeries s]> h))
                 := ODict (financials_of s).2]>
                  (<[fresh (dom h) := OSeries s]> h) !! l = Some o).
  { rewrite lookup_insert_ne; [done|]. intros Heq.
    apply (is_fresh (dom (<[fresh (dom h) := OSeries s]> h))).
    rewrite Heq. by apply elem_of_dom. }
  by destruct (financials_of s).1.
Qed.

Lemma after_loader_call_frame_witness :
  (after_loader_call (Some [row_apple]) {[7%positive := OSeries row_loss]}).2
    !! 7%positive = Some (OSeries row_loss).
Proof.
  apply (after_loader_call_frame (Some [row_apple])
           {[7%positive := OSeries row_loss]} 7%positive (OSeries row_loss)).
  apply lookup_singleton_eq.
Defined.

(** ** The check after the patch (lines 97-116) *)

Lemma run_dict_truth (h : heap) (l : loc) (d : gmap string spec_float) :
  dict_truth l (<[l := ODict d]> h) = (Ok (bool_decide (d <> ∅)), <[l := ODict d]> h).
Proof. unfold dict_truth. by rewrite lookup_insert_eq. Qed.

Lemma verify_fix_run (edgar_loader : EdgarLoader) (h : heap)
    (s : series) (rest : list series) :
  get_company_financials edgar_loader APPLE_CIK [2024] = Some (s :: rest) ->
  (verify_fix edgar_loader h).1 =
  match financials_of s with
  | (Ok _, d) =>
      Ok (if bool_decide (d <> ∅) then
            if F64.ltb F64.zero (default F64.zero (d !! "gross_profit"%string))
            then GrossProfitPositive else GrossProfitStillNegative
          else CouldNotGetFinancials)
  | (Raise e, _) => Raise e
  end.
Proof.
  intros Hdata. unfold verify_fix, to_financials_dict. rewrite run_bind.
  rewrite (fixed_to_financials_dict_run edgar_loader _ _ h s rest Hdata).
  destruct (financials_of s) as [[u|e] d]; cbn [fst snd]; [|done].
  rewrite run_bind, run_dict_truth.
  destruct (bool_decide (d <> ∅)); [|done].
  rewrite run_bind, run_dict_get, run_bind, run_dict_get, run_bind, run_dict_get.
  by destruct (F64.ltb _ _).
Qed.

Lemma copied_all_null (s : series) (d0 : gmap string spec_float) :
  NoDup s.*1 ->
  (forall (key : string) (v : pyvalue), (key, v) ∈ s ->
     skipped key = true \/ pd_notna v = false) ->
  copied s d0 -> d0 = ∅.
Proof.
  intros Hnd Hnull Hd0. apply map_eq. intros key. rewrite Hd0, lookup_empty.
  destruct (skipped key) eqn:Hkey; [done|].
  destruct (decide (key ∈ s.*1)) as [Hin|Hnin]; [|by apply field_absent].
  apply list_elem_of_fmap in Hin as [[k v] [-> Hin]]. cbn [fst] in *.
  unfold field. rewrite (lookup_label_NoDup k v s Hnd Hin).
  destruct (Hnull k v Hin) as [Hs| ->]; [congruence | done].
Qed.

(** X11.  The check reports "Could not get Apple financials" not only when
    the loader has no data for Apple in 2024, but also when it has a row
    (with distinct labels) in which every value outside cik and year is
    null: the method then returns an empty dict, which the check takes
    for no dict. *)
Theorem verify_fix_could_not_get (edgar_loader : EdgarLoader) (h : heap) :
  get_company_financials edgar_loader APPLE_CIK [2024] = None \/
  get_company_financials edgar_loader APPLE_CIK [2024] = Some [] \/
  (exists (s : series) (rest : list series),
     get_company_financials edgar_loader APPLE_CIK [2024] = Some (s :: rest) /\
     NoDup s.*1 /\
     forall (key : string) (v : pyvalue), (key, v) ∈ s ->
       skipped key = true \/ pd_notna v = false) ->
  (verify_fix edgar_loader h).1 = Ok CouldNotGetFinancials.
Proof.
  intros [Hdata|[Hdata|(s & rest & Hdata & Hnd & Hnull)]].
  - unfold verify_fix, to_financials_dict, fixed_to_financials_dict.
    by rewrite run_bind, Hdata.
  - unfold verify_fix, to_financials_dict, fixed_to_financials_dict.
    by rewrite run_bind, Hdata.
  - rewrite (verify_fix_run edgar_loader h s rest Hdata).
    assert (Hok : exists d, financials_of s = (Ok tt, d)).
    { unfold financials_of.
      destruct (copy_cells_ok s (s.*1)) with (d := ∅ : gmap string spec_float)
        as [d' ->]; [|eauto].
      apply Forall_forall. intros key Hkey.
      apply cell_ok_accepted; [done| |done].
      intros v Hin. destruct (Hnull key v Hin); auto. }
    destruct Hok as [d Hfin]. rewrite Hfin.
    destruct (financials_of_ok s d tt Hfin) as (d0 & Hd0 & ->).
    rewrite (copied_all_null s d0 Hnd Hnull Hd0).
    by rewrite bool_decide_eq_false_2 by (intros Hne; by apply Hne).
Qed.

Lemma verify_fix_could_not_get_witness :
  (verify_fix (loader_with row_all_null) ∅).1 = Ok CouldNotGetFinancials.
Proof.
  apply (verify_fix_could_not_get (loader_with row_all_null) ∅).
  right. right. exists row_all_null, []. split; [reflexivity|].
  split; [by_evaluation|].
  intros key v Hin.
  repeat (apply elem_of_cons in Hin as [Heq|Hin];
          [simplify_eq; first [by left | by right]|]).
  by apply not_elem_of_nil in Hin.
Defined.

(** X13.  The check has no handler: when reconcile raises on the first
    row, the check raises the same exception and prints no verdict. *)
Theorem verify_fix_propagates
    (edgar_loader : EdgarLoader) (h h0 : heap) (row : loc)
    (s : series) (rest : list series) (e : exn) :
  get_company_financials edgar_loader APPLE_CIK [2024] = Some (s :: rest) ->
  h0 !! row = Some (OSeries s) ->
  returned_dict (reconcile row) h0 = Raise e ->
  (verify_fix edgar_loader h).1 = Raise e.
Proof.
  intros Hdata Hrow. rewrite (returned_dict_reconcile h0 row s Hrow).
  rewrite (verify_fix_run edgar_loader h s rest Hdata).
  destruct (financials_of s) as [[u|e'] d]; cbn [fst]; [done|congruence].
Qed.

Lemma verify_fix_propagates_witness :
  (verify_fix (loader_with row_bad_string) ∅).1 = Raise ValueError.
Proof.
  apply (verify_fix_propagates (loader_with row_bad_string) ∅
           {[1%positive := OSeries row_bad_string]} 1%positive row_bad_string []).
  - reflexivity.
  - apply lookup_singleton_eq.
  - by_evaluation.
Defined.

(** ** Step 4 of the diagnostic cell (diagnostic_edgar_apple.py, lines 117-157) *)

Lemma diagnose_run (loader : EdgarLoader) (h : heap)
    (s : series) (rest : list series) :
  get_company_financials loader APPLE_CIK [2023] = Some (s :: rest) ->
  (diagnose_to_financials_dict (Some loader) true h).1 =
  match financials_of s with
  | (Ok _, d) =>
      Ok (if bool_decide (d <> ∅)
          then Judged (judge_revenue (default F64.zero (d !! "revenue"%string)))
          else ReturnedNone)
  | (Raise e, _) => Ok (Failed e)
  end.
Proof.
  intros Hdata. unfold diagnose_to_financials_dict, try_except, to_financials_dict.
  rewrite run_bind.
  rewrite (fixed_to_financials_dict_run loader _ _ h s rest Hdata).
  destruct (financials_of s) as [[u|e] d]; cbn [fst snd]; [|done].
  rewrite run_bind, run_dict_truth.
  destruct (bool_decide (d <> ∅)); [|done].
  by rewrite run_bind, run_dict_get, run_bind, run_dict_get.
Qed.

(** X14.  The diagnostic cell catches what the method raises: when
    reconcile raises on the loader's first row for Apple in 2023, step 4
    ends normally and reports that exception instead of a verdict. *)
Theorem diagnose_reports_exception
    (loader : EdgarLoader) (h h0 : heap) (row : loc)
    (s : series) (rest : list series) (e : exn) :
  get_company_financials loader APPLE_CIK [2023] = Some (s :: rest) ->
  h0 !! row = Some (OSeries s) ->
  returned_dict (reconcile row) h0 = Raise e ->
  (diagnose_to_financials_dict (Some loader) true h).1 = Ok (Failed e).
Proof.
  intros Hdata Hrow. rewrite (returned_dict_reconcile h0 row s Hrow).
  rewrite (diagnose_run loader h s rest Hdata).
  destruct (financials_of s) as [[u|e'] d]; cbn [fst]; [done|congruence].
Qed.

Lemma diagnose_reports_exception_witness :
  (diagnose_to_financials_dict (Some (loader_with row_bad_string)) true ∅).1
    = Ok (Failed ValueError).
Proof.
  apply (diagnose_reports_exception (loader_with row_bad_string) ∅
           {[1%positive := OSeries row_bad_string]} 1%positive row_bad_string []).
  - reflexivity.
  - apply lookup_singleton_eq.
  - by_evaluation.
Defined.

(** X15.  A missing revenue is judged as revenue 0: when the method
    returns a dict that has keys but no revenue, step 4 reports
    "UNEXPECTED", never the warning that revenue matches accounts
    receivable and never that the method returned None. *)
Theorem diagnose_missing_revenue
    (loader : EdgarLoader) (h : heap) (s : series) (rest : list series)
    (d : gmap string spec_float) :
  get_company_financials loader APPLE_CIK [2023] = Some (s :: rest) ->
  returned_financials (to_financials_dict loader APPLE_CIK 2023) h = Ok (Some d) ->
  d <> ∅ ->
  d !! "revenue"%string = None ->
  (diagnose_to_financials_dict (Some loader) true h).1 = Ok (Judged RevenueUnexpected).
Proof.
  intros Hdata Hret Hne Hrev.
  rewrite (returned_financials_run loader _ _ h s rest Hdata) in Hret.
  rewrite (diagnose_run loader h s rest Hdata).
  destruct (financials_of s) as [[[]|e] d']; [|done]. simplify_eq.
  rewrite bool_decide_eq_true_2 by done. rewrite Hrev. vm_compute. reflexivity.
Qed.

Lemma diagnose_missing_revenue_witness :
  (diagnose_to_financials_dict (Some (loader_with row_receivables_only)) true ∅).1
    = Ok (Judged RevenueUnexpected).
Proof.
  apply (diagnose_missing_revenue (loader_with row_receivables_only) ∅
           row_receivables_only [] dict_receivables_only);
    first [by_evaluation | vm_compute; reflexivity].
Defined.

(** ** The sign of a difference of binary64 values

    Subtraction rounds, but the difference of two well-formed binary64
    values never rounds to zero or across zero. *)

Lemma fexp_eq e : fexp F64.prec F64.emax e = Z.max (e - 53) (-1074).
Proof. reflexivity. Qed.

Lemma pow2_pred (d : Z) : 1 <= d -> 2 ^ d = 2 * 2 ^ (d - 1).
Proof.
  intros Hd. replace d with (Z.succ (d - 1)) at 1 by lia.
  apply Z.pow_succ_r. lia.
Qed.

Lemma digits2_pos_bounds (m : positive) :
  2 ^ (Zpos (digits2_pos m) - 1) <= Zpos m < 2 ^ Zpos (digits2_pos m).
Proof.
  induction m as [m IH|m IH|]; cbn [digits2_pos].
  - rewrite Pos2Z.inj_succ. change (Zpos m~1) with (2 * Zpos m + 1).
    replace (Z.succ (Zpos (digits2_pos m)) - 1) with (Zpos (digits2_pos m)) by lia.
    rewrite Z.pow_succ_r by lia.
    rewrite (pow2_pred (Zpos (digits2_pos m))) in * by lia.
    generalize dependent (2 ^ (Zpos (digits2_pos m) - 1)). intros; lia.
  - rewrite Pos2Z.inj_succ. change (Zpos m~0) with (2 * Zpos m).
    replace (Z.succ (Zpos (digits2_pos m)) - 1) with (Zpos (digits2_pos m)) by lia.
    rewrite Z.pow_succ_r by lia.
    rewrite (pow2_pred (Zpos (digits2_pos m))) in * by lia.
    generalize dependent (2 ^ (Zpos (digits2_pos m) - 1)). intros; lia.
  - cbn. lia.
Qed.

Lemma shr_1_m (mrs : shr_record) :
  0 <= shr_m mrs -> shr_m (shr_1 mrs) = shr_m mrs / 2.
Proof.
  destruct mrs as [m r s]. cbn [shr_m]. intros Hm.
  destruct m as [|[p|p|]|p]; cbn [shr_1 shr_m]; try lia.
  - reflexivity.
  - change (Zpos p~1) with (2 * Zpos p + 1). apply Z.div_unique with (r := 1); lia.
  - change (Zpos p~0) with (2 * Zpos p). apply Z.div_unique with (r := 0); lia.
  - reflexivity.
Qed.

Lemma iter_shr_1_m (p : positive) :
  forall mrs, 0 <= shr_m mrs ->
  shr_m (SpecFloat.iter_pos shr_1 p mrs) = shr_m mrs / 2 ^ Zpos p.
Proof.
  induction p as [p IH|p IH|]; intros mrs Hm; cbn [SpecFloat.iter_pos].
  - assert (H1 : 0 <= shr_m (shr_1 mrs)).
    { rewrite shr_1_m by done. apply Z.div_pos; lia. }
    assert (H2 : 0 <= shr_m (SpecFloat.iter_pos shr_1 p (shr_1 mrs))).
    { rewrite IH by done. apply Z.div_pos; [done|]. apply Z.pow_pos_nonneg; lia. }
    rewrite IH, IH, shr_1_m by done.
    rewrite !Z.div_div by (try apply Z.pow_pos_nonneg; lia).
    f_equal. change (Zpos p~1) with (2 * Zpos p + 1).
    replace (2 * Zpos p + 1) with (1 + Zpos p + Zpos p) by lia.
    rewrite !Z.pow_add_r by lia. lia.
  - assert (H2 : 0 <= shr_m (SpecFloat.iter_pos shr_1 p mrs)).
    { rewrite IH by done. apply Z.div_pos; [done|]. apply Z.pow_pos_nonneg; lia. }
    rewrite IH, IH by done.
    rewrite !Z.div_div by (try apply Z.pow_pos_nonneg; lia).
    f_equal. change (Zpos p~0) with (2 * Zpos p).
    replace (2 * Zpos p) with (Zpos p + Zpos p) by lia.
    rewrite !Z.pow_add_r by lia. lia.
  - rewrite shr_1_m by done. reflexivity.
Qed.

Lemma shr_record_of_loc_m m l : shr_m (shr_record_of_loc m l) = m.
Proof. by destruct l as [|[]]. Qed.

Lemma shr_fexp_pos (m : positive) (e : Z) (l : location) :
  -1074 <= e ->
  0 < shr_m (shr_fexp F64.prec F64.emax (Zpos m) e l).1 /\
  -1074 <= (shr_fexp F64.prec F64.emax (Zpos m) e l).2.
Proof.
  intros He. unfold shr_fexp, shr. cbn [Zdigits2]. rewrite fexp_eq.
  pose proof (digits2_pos_bounds m) as Hd.
  destruct (Z.max (Zpos (digits2_pos m) + e - 53) (-1074) - e) as [|n|n] eqn:Hn;
    cbn [fst snd].
  - rewrite shr_record_of_loc_m. lia.
  - rewrite iter_shr_1_m, shr_record_of_loc_m by (rewrite shr_record_of_loc_m; lia).
    split; [|lia]. apply Z.div_str_pos. split; [apply Z.pow_pos_nonneg; lia|].
    transitivity (2 ^ (Zpos (digits2_pos m) - 1)); [|lia].
    apply Z.pow_le_mono_r; lia.
  - rewrite shr_record_of_loc_m. lia.
Qed.

Lemma round_nearest_even_ge (m : Z) (l : location) : m <= round_nearest_even m l.
Proof. destruct l as [|[]]; cbn; try lia. destruct (Z.even m); lia. Qed.

(** A positive mantissa at an exponent in range rounds to a number of the
    sign asked for, never to zero. *)
Lemma binary_round_aux_nonzero (sx : bool) (m : positive) (e : Z) (l : location) :
  -1074 <= e ->
  match binary_round_aux F64.prec F64.emax sx (Zpos m) e l with
  | S754_finite s _ _ | S754_infinity s => s = sx
  | _ => False
  end.
Proof.
  intros He. unfold binary_round_aux.
  destruct (shr_fexp_pos m e l He) as [Hm1 He1].
  destruct (shr_fexp F64.prec F64.emax (Zpos m) e l) as [mrs1 e1]. cbn [fst snd] in *.
  pose proof (round_nearest_even_ge (shr_m mrs1) (loc_of_shr_record mrs1)) as Hr.
  destruct (round_nearest_even (shr_m mrs1) (loc_of_shr_record mrs1)) as [|m2|m2];
    try lia.
  destruct (shr_fexp_pos m2 e1 loc_Exact He1) as [Hm2 _].
  destruct (shr_fexp F64.prec F64.emax (Zpos m2) e1 loc_Exact) as [mrs2 e2]. cbn [fst snd] in *.
  destruct (shr_m mrs2) as [|m3|m3]; try lia.
  by destruct (e2 <=? F64.emax - F64.prec).
Qed.

(** Whatever is rounded, the result has the sign asked for or is NaN. *)
Lemma binary_round_aux_sign (sx : bool) (m e : Z) (l : location) :
  match binary_round_aux F64.prec F64.emax sx m e l with
  | S754_zero s | S754_finite s _ _ | S754_infinity s => s = sx
  | S754_nan => True
  end.
Proof.
  unfold binary_round_aux.
  destruct (shr_fexp F64.prec F64.emax m e l) as [mrs1 e1].
  destruct (shr_fexp F64.prec F64.emax _ e1 loc_Exact) as [mrs2 e2].
  destruct (shr_m mrs2); try done. by destruct (e2 <=? F64.emax - F64.prec).
Qed.

Lemma shl_align_exponent (m : positive) (e e' : Z) :
  -1074 <= e -> -1074 <= e' -> -1074 <= (shl_align m e e').2.
Proof. intros He He'. unfold shl_align. by destruct (e' - e). Qed.

Lemma ltb_zero_binary_normalize (D e : Z) :
  -1074 <= e ->
  SFltb (S754_zero false) (binary_normalize F64.prec F64.emax D e false) = (0 <? D).
Proof.
  intros He. destruct D as [|p|p]; cbn [binary_normalize]; [done| |].
  - unfold binary_round.
    pose proof (shl_align_exponent p e (fexp F64.prec F64.emax (Zpos (digits2_pos p) + e)) He) as Hz.
    destruct (shl_align p e _) as [mz ez]. cbn [snd] in Hz.
    assert (Hez : -1074 <= ez) by (apply Hz; rewrite fexp_eq; lia).
    pose proof (binary_round_aux_nonzero false mz ez loc_Exact Hez) as Hr.
    destruct (binary_round_aux F64.prec F64.emax false (Zpos mz) ez loc_Exact); try done;
      by subst.
  - unfold binary_round.
    destruct (shl_align p e _) as [mz ez].
    pose proof (binary_round_aux_sign true (Zpos mz) ez loc_Exact) as Hr.
    destruct (binary_round_aux F64.prec F64.emax true (Zpos mz) ez loc_Exact); try done;
      by subst.
Qed.

Lemma pos_iter_xO (m d : positive) : Zpos (Pos.iter xO m d) = Zpos m * 2 ^ Zpos d.
Proof.
  induction d as [|d IH] using Pos.peano_ind.
  - cbn [Pos.iter]. change (Zpos m~0) with (2 * Zpos m). lia.
  - rewrite Pos.iter_succ.
    change (Zpos (Pos.iter xO m d)~0) with (2 * Zpos (Pos.iter xO m d)).
    rewrite IH, Pos2Z.inj_succ, Z.pow_succ_r by lia. lia.
Qed.

Lemma shl_align_fst (m : positive) (e ez : Z) :
  ez <= e -> Zpos (shl_align m e ez).1 = Zpos m * 2 ^ (e - ez).
Proof.
  intros Hle. unfold shl_align. destruct (ez - e) as [|p|p] eqn:Hp; cbn [fst].
  - replace (e - ez) with 0 by lia. lia.
  - lia.
  - rewrite pos_iter_xO. do 2 f_equal. lia.
Qed.

Lemma bounded_facts (m : positive) (e : Z) :
  bounded F64.prec F64.emax m e = true ->
  -1074 <= e /\ Zpos (digits2_pos m) <= 53 /\
  (-1074 < e -> Zpos (digits2_pos m) = 53).
Proof.
  unfold bounded, canonical_mantissa. rewrite fexp_eq.
  intros [H1 _]%andb_true_iff. apply Z.eqb_eq in H1. lia.
Qed.

(** Of two well-formed positive numbers the one with the greater exponent
    is the greater. *)
Lemma aligned_lt (mx my : positive) (ex ey : Z) :
  bounded F64.prec F64.emax mx ex = true -> bounded F64.prec F64.emax my ey = true ->
  ex < ey ->
  Zpos mx < Zpos my * 2 ^ (ey - ex).
Proof.
  intros (Hex & Hdx & _)%bounded_facts (Hey & _ & Hdy)%bounded_facts Hlt.
  pose proof (digits2_pos_bounds mx) as Hmx.
  pose proof (digits2_pos_bounds my) as Hmy.
  rewrite Hdy in Hmy by lia.
  assert (H53 : Zpos mx < 2 ^ 53).
  { eapply Z.lt_le_trans; [apply Hmx|]. apply Z.pow_le_mono_r; lia. }
  assert (H2 : 2 ^ 1 <= 2 ^ (ey - ex)) by (apply Z.pow_le_mono_r; lia).
  change (2 ^ 1) with 2 in H2. change (53 - 1) with 52 in Hmy.
  assert (H52 : 2 ^ 53 = 2 ^ 52 * 2) by reflexivity.
  generalize dependent (2 ^ (ey - ex)). intros k Hk. nia.
Qed.

Lemma ltb_finite_sub (sx sy : bool) (mx my : positive) (ex ey : Z) :
  bounded F64.prec F64.emax mx ex = true -> bounded F64.prec F64.emax my ey = true ->
  SFltb (S754_finite sy my ey) (S754_finite sx mx ex) =
  (0 <? cond_Zopp sx (Zpos (shl_align mx ex (Z.min ex ey)).1)
        - cond_Zopp sy (Zpos (shl_align my ey (Z.min ex ey)).1)).
Proof.
  intros Hx Hy.
  rewrite !shl_align_fst by lia.
  unfold SFltb, SFcompare.
  change (Pos.compare_cont Eq my mx) with (Zpos my ?= Zpos mx).
  destruct (Z.compare_spec ey ex) as [Heq|Hlt|Hgt].
  - subst ey. rewrite Z.min_id, Z.sub_diag, !Z.mul_1_r.
    destruct (Z.compare_spec (Zpos my) (Zpos mx)); destruct sx, sy; cbn [cond_Zopp CompOpp];
      symmetry; first [apply Z.ltb_lt; lia | apply Z.ltb_ge; lia].
  - pose proof (aligned_lt my mx ey ex Hy Hx Hlt) as Hab.
    rewrite Z.min_r, Z.sub_diag, Z.mul_1_r by lia.
    destruct sx, sy; cbn [cond_Zopp];
      symmetry; first [apply Z.ltb_lt; lia | apply Z.ltb_ge; lia].
  - pose proof (aligned_lt mx my ex ey Hx Hy Hgt) as Hab.
    rewrite Z.min_l, Z.sub_diag, Z.mul_1_r by lia.
    destruct sx, sy; cbn [cond_Zopp];
      symmetry; first [apply Z.ltb_lt; lia | apply Z.ltb_ge; lia].
Qed.

(** For well-formed binary64 values, [x - y > 0] exactly when [x > y]. *)
Lemma sub_positive (x y : spec_float) :
  valid_binary F64.prec F64.emax x = true -> valid_binary F64.prec F64.emax y = true ->
  SFltb (S754_zero false) (SFsub F64.prec F64.emax x y) = SFltb y x.
Proof.
  destruct x as [sx|sx| |sx mx ex], y as [sy|sy| |sy my ey]; cbn [valid_binary];
    intros Hx Hy; try done; try (by destruct sx); try (by destruct sy);
    try (by destruct sx, sy).
  cbn [SFsub].
  rewrite ltb_zero_binary_normalize.
  - symmetry. by apply ltb_finite_sub.
  - apply bounded_facts in Hx, Hy. lia.
Qed.

(** X12.  Once the patch has recomputed it, gross_profit is positive
    exactly when revenue exceeds cogs: for every row whose result holds
    revenue and cogs, both well-formed binary64 values, the result has a
    gross_profit, and gross_profit > 0 if and only if revenue > cogs. *)
Theorem reconcile_gross_profit_sign
    (h : heap) (row : loc) (s : series) (d : gmap string spec_float)
    (revenue cogs : spec_float) :
  h !! row = Some (OSeries s) ->
  returned_dict (reconcile row) h = Ok d ->
  d !! "revenue"%string = Some revenue ->
  d !! "cogs"%string = Some cogs ->
  valid_binary F64.prec F64.emax revenue = true ->
  valid_binary F64.prec F64.emax cogs = true ->
  exists gp, d !! "gross_profit"%string = Some gp /\
    F64.ltb F64.zero gp = F64.ltb cogs revenue.
Proof.
  intros Hrow Hret. destruct (reconcile_ok h row s d Hrow Hret) as (d0 & _ & ->).
  rewrite recompute_gross_profit_lookup.
  rewrite !recompute_gross_profit_lookup_ne by done.
  intros -> -> Hvr Hvc. eexists. split; [done|]. by apply sub_positive.
Qed.

Lemma reconcile_gross_profit_sign_witness :
  exists gp, dict_apple !! "gross_profit"%string = Some gp /\
    F64.ltb F64.zero gp =
    F64.ltb (F64.of_Z 214137000000) (F64.of_Z 383285000000).
Proof.
  apply (reconcile_gross_profit_sign
           {[1%positive := OSeries row_apple]} 1%positive row_apple dict_apple
           (F64.of_Z 383285000000) (F64.of_Z 214137000000)
           (lookup_singleton_eq _ _));
    first [by_evaluation | vm_compute; reflexivity].
Defined.

(** X16.  The check after the patch judges the recomputed gross profit,
    whatever gross_profit the row reports: when the result for the first
    row holds revenue and cogs, both well-formed binary64 values, the
    check reports "POSITIVE" if revenue > cogs and "still negative"
    otherwise. *)
Theorem verify_fix_positive_iff_revenue_exceeds_cogs
    (edgar_loader : EdgarLoader) (h : heap) (s : series) (rest : list series)
    (d : gmap string spec_float) (revenue cogs : spec_float) :
  get_company_financials edgar_loader APPLE_CIK [2024] = Some (s :: rest) ->
  returned_financials (to_financials_dict edgar_loader APPLE_CIK 2024) h = Ok (Some d) ->
  d !! "revenue"%string = Some revenue ->
  d !! "cogs"%string = Some cogs ->
  valid_binary F64.prec F64.emax revenue = true ->
  valid_binary F64.prec F64.emax cogs = true ->
  (verify_fix edgar_loader h).1 =
  Ok (if F64.ltb cogs revenue then GrossProfitPositive else GrossProfitStillNegative).
Proof.
  intros Hdata Hret Hrev Hcogs Hvr Hvc.
  rewrite (returned_financials_run edgar_loader _ _ h s rest Hdata) in Hret.
  rewrite (verify_fix_run edgar_loader h s rest Hdata).
  destruct (financials_of s) as [[[]|e] d'] eqn:Hfin; [|done]. simplify_eq.
  destruct (financials_of_ok s d tt Hfin) as (d0 & _ & ->).
  rewrite bool_decide_eq_true_2.
  2:{ intros Hempty. rewrite Hempty in Hrev. by rewrite lookup_empty in Hrev. }
  rewrite recompute_gross_profit_lookup.
  rewrite !recompute_gross_profit_lookup_ne in Hrev, Hcogs by done.
  rewrite Hrev, Hcogs. cbn [default from_option id].
  change (default F64.zero (Some (F64.sub revenue cogs))) with (F64.sub revenue cogs).
  unfold F64.ltb, F64.zero, F64.sub. by rewrite sub_positive.
Qed.

Lemma verify_fix_positive_iff_revenue_exceeds_cogs_witness :
  (verify_fix (loader_with row_loss) ∅).1 = Ok GrossProfitStillNegative.
Proof.
  rewrite (verify_fix_positive_iff_revenue_exceeds_cogs (loader_with row_loss) ∅
             row_loss []
             (dict_of [("revenue", 100); ("cogs", 250); ("gross_profit", -150)]%string)
             (F64.of_Z 100) (F64.of_Z 250));
    first [by_evaluation | vm_compute; reflexivity].
Defined.

(** ** The order of the columns *)

Lemma lookup_label_Permutation (s s' : series) (col : string) :
  s ≡ₚ s' -> lookup_label col s ≡ₚ lookup_label col s'.
Proof. intros Hp. unfold lookup_label. by rewrite Hp. Qed.

Lemma lookup_label_shape (s s' : series) (col : string) :
  s ≡ₚ s' ->
  match lookup_label col s with
  | [] => lookup_label col s' = []
  | [v] => lookup_label col s' = [v]
  | _ :: _ :: _ => exists w w' vs, lookup_label col s' = w :: w' :: vs
  end.
Proof.
  intros Hp%(lookup_label_Permutation s s' col).
  destruct (lookup_label col s) as [|v [|w vs]].
  - by apply Permutation_nil_l in Hp.
  - by apply Permutation_singleton_l in Hp.
  - apply Permutation_length in Hp. cbn [length] in Hp.
    destruct (lookup_label col s') as [|a [|b l]]; try done. eauto.
Qed.

Lemma field_Permutation (s s' : series) (key : string) :
  s ≡ₚ s' -> field s' key = field s key.
Proof.
  intros Hp. pose proof (lookup_label_shape s s' key Hp) as Hshape.
  unfold field. destruct (lookup_label key s) as [|v [|w vs]].
  - by rewrite Hshape.
  - by rewrite Hshape.
  - by destruct Hshape as (a & b & l & ->).
Qed.

Lemma cell_ok_Permutation (s s' : series) (col : string) :
  s ≡ₚ s' -> cell_ok s' col = cell_ok s col.
Proof.
  intros Hp. pose proof (lookup_label_shape s s' col Hp) as Hshape.
  unfold cell_ok. destruct (lookup_label col s) as [|v [|w vs]].
  - by rewrite Hshape.
  - by rewrite Hshape.
  - by destruct Hshape as (a & b & l & ->).
Qed.

Lemma copy_cells_ok_inv (s : series) (cols : list string) :
  forall (d d' : gmap string spec_float) (u : unit),
  copy_cells s cols d = (Ok u, d') ->
  Forall (fun col => cell_ok s col = true) cols.
Proof.
  intros d d' u Hok. apply Forall_forall. intros col Hin.
  destruct (cell_ok s col) eqn:Hcell; [done|].
  destruct (copy_cells_raise s cols col Hin Hcell d) as (e & d1 & Hraise).
  congruence.
Qed.

Lemma copy_cells_copied (s : series) (d : gmap string spec_float) (u : unit) :
  copy_cells s s.*1 ∅ = (Ok u, d) -> copied s d.
Proof.
  intros Hcopy key. rewrite (copy_cells_lookup _ _ key _ _ _ Hcopy), lookup_empty.
  destruct (skipped key); cbn [negb]; rewrite ?andb_false_r, ?andb_true_r; [done|].
  case_bool_decide as Hin.
  - by destruct (field s key).
  - by rewrite field_absent.
Qed.

(** X17.  The order of the row's columns does not matter to the dict:
    when reconcile returns a dict for a row, it returns a dict with the
    same keys and values for every rearrangement of the row's columns. *)
Theorem reconcile_column_order
    (h h' : heap) (row row' : loc) (s s' : series) (d : gmap string spec_float) :
  h !! row = Some (OSeries s) ->
  h' !! row' = Some (OSeries s') ->
  s ≡ₚ s' ->
  returned_dict (reconcile row) h = Ok d ->
  returned_dict (reconcile row') h' = Ok d.
Proof.
  intros Hrow Hrow' Hp.
  rewrite (returned_dict_reconcile h row s Hrow).
  rewrite (returned_dict_reconcile h' row' s' Hrow').
  destruct (financials_of s) as [[[]|e] d1] eqn:Hfin; cbn [fst snd]; [|done].
  intros [= <-].
  destruct (financials_of_ok s d1 tt Hfin) as (d0 & Hd0 & ->).
  assert (Hcopy : exists d0', copy_cells s' s'.*1 ∅ = (Ok tt, d0')).
  { apply copy_cells_ok.
    assert (Hall : Forall (fun col => cell_ok s col = true) s.*1).
    { unfold financials_of in Hfin.
      destruct (copy_cells s s.*1 ∅) as [[u|e] d2] eqn:Hc; [|done].
      by apply (copy_cells_ok_inv s s.*1 ∅ d2 u). }
    rewrite <- Hp. eapply Forall_impl; [exact Hall|].
    intros col Hcol. by rewrite (cell_ok_Permutation s s' col Hp). }
  destruct Hcopy as [d0' Hcopy].
  assert (Hsame : d0' = d0).
  { apply map_eq. intros key.
    rewrite (copy_cells_copied s' d0' tt Hcopy key), Hd0.
    destruct (skipped key); [done|]. by apply field_Permutation. }
  unfold financials_of. rewrite Hcopy. cbn [fst snd]. by rewrite Hsame.
Qed.

Lemma reconcile_column_order_witness :
  returned_dict (reconcile 1%positive) {[1%positive := OSeries (reverse row_apple)]}
    = Ok dict_apple.
Proof.
  apply (reconcile_column_order
           {[1%positive := OSeries row_apple]}
           {[1%positive := OSeries (reverse row_apple)]}
           1%positive 1%positive row_apple (reverse row_apple) dict_apple).
  - apply lookup_singleton_eq.
  - apply lookup_singleton_eq.
  - symmetry. apply reverse_Permutation.
  - by_evaluation.
Defined.
